(** * script_to_run_task: turning a task's [script] into a [run.command]

    A shallow embedding of
    [taskcluster/glean_taskgraph/transforms/script_to_run_task.py]:
    the string formatter [script_to_bash_command] and the generator
    [build_task], which pops [run.script] from every task record and
    stores the bash command list under [run.command].

    Python objects live in a heap: task records and their [run] mappings
    are dictionaries that the transform mutates in place, and two records
    may share one mapping. *)

From Stdlib Require Import Ascii String.
From stdpp Require Import gmap strings list fin_maps.

Local Open Scope string_scope.

(** ** Text *)

Module Text.

(** The line feed character, written [\n] in the source. *)
Definition LF : ascii := Ascii.ascii_of_nat 10.
Definition nl : string := String LF EmptyString.

(** [lines s] is Python's [s.split("\n")]: the pieces of [s] between line
    feeds; a string without a line feed is its own single line. *)
Fixpoint lines (s : string) : list string :=
  match s with
  | EmptyString => [EmptyString]
  | String c rest =>
      if Ascii.eqb c LF then EmptyString :: lines rest
      else match lines rest with
           | [] => [String c EmptyString]
           | l :: ls => String c l :: ls
           end
  end.

(** [unlines ls] is Python's ["\n".join(ls)]. *)
Fixpoint unlines (ls : list string) : string :=
  match ls with
  | [] => EmptyString
  | [l] => l
  | l :: ls' => l ++ nl ++ unlines ls'
  end.

(** The errors [str.format] can raise on the templates handled here. *)
Inductive format_error :=
  | FieldIndex      (* IndexError: more fields than arguments *)
  | FieldSyntax.    (* ValueError: a lone brace or an unsupported field *)

(** [str_format tpl args] is [tpl.format( *args )] for templates whose
    replacement fields are all the automatic field [{}]; doubled braces
    are the escapes for a literal brace. Arguments are spliced in as they
    are and never scanned again. *)
Fixpoint str_format (tpl : string) (args : list string)
  : format_error + string :=
  match tpl with
  | EmptyString => inr EmptyString
  | String "{" (String "}" rest) =>
      match args with
      | [] => inl FieldIndex
      | a :: args' =>
          match str_format rest args' with
          | inr out => inr (a ++ out)
          | inl e => inl e
          end
      end
  | String "{" (String "{" rest) =>
      match str_format rest args with
      | inr out => inr (String "{" out)
      | inl e => inl e
      end
  | String "}" (String "}" rest) =>
      match str_format rest args with
      | inr out => inr (String "}" out)
      | inl e => inl e
      end
  | String "{" _ => inl FieldSyntax
  | String "}" _ => inl FieldSyntax
  | String c rest =>
      match str_format rest args with
      | inr out => inr (String c out)
      | inl e => inl e
      end
  end.

End Text.

(** ** Python objects *)

Module Py.

(** Objects are reached through references. Strings and [None] are
    immutable, so they are carried as values; dictionaries and lists are
    mutable and live in the heap at a location. Dictionary keys are
    strings, as in a task record. *)
Abbreviation loc := positive (only parsing).

Inductive value :=
  | VStr (s : string)
  | VNone
  | VRef (l : loc).

Inductive obj :=
  | ODict (d : gmap string value)
  | OList (xs : list value).

(** The interpreter state the transform can touch: the heap and what has
    been written to standard output, oldest chunk first. *)
Record state := State {
  heap : gmap loc obj;
  stdout : list string
}.

(** The exceptions the modelled operations can raise. [SystemError] is
    what a reference with no object behind it gives; Python never builds
    such a reference, the case only makes the operations total. *)
Inductive exn :=
  | KeyError (key : string)
  | TypeError
  | AttributeError
  | IndexError
  | ValueError
  | SystemError.

(** A computation either raises or returns, and leaves a state behind in
    both cases. *)
Definition M (A : Type) : Type := state -> (exn + A) * state.

Definition ret {A} (a : A) : M A := fun st => (inr a, st).
Definition bind {A B} (c : M A) (k : A -> M B) : M B :=
  fun st =>
    match c st with
    | (inl e, st') => (inl e, st')
    | (inr a, st') => k a st'
    end.

Declare Scope py_scope.
Delimit Scope py_scope with py.
Notation "x <- c ;; k" := (bind c (fun x => k))
  (at level 100, c at next level, right associativity) : py_scope.
Notation "c ;; k" := (bind c (fun _ => k))
  (at level 100, right associativity) : py_scope.

(** [v[key]] for a string key. *)
Definition getitem (v : value) (key : string) : M value :=
  fun st =>
    match v with
    | VRef l =>
        match heap st !! l with
        | Some (ODict d) =>
            match d !! key with
            | Some x => (inr x, st)
            | None => (inl (KeyError key), st)
            end
        | Some (OList _) => (inl TypeError, st)
        | None => (inl SystemError, st)
        end
    | VStr _ | VNone => (inl TypeError, st)
    end.

(** [v.pop(key)] for a string key: on a dictionary the key is removed and
    its value returned; a list has a [pop] that wants an integer; strings
    and [None] have no [pop] attribute. *)
Definition pop (v : value) (key : string) : M value :=
  fun st =>
    match v with
    | VRef l =>
        match heap st !! l with
        | Some (ODict d) =>
            match d !! key with
            | Some x =>
                (inr x, State (<[l := ODict (delete key d)]> (heap st))
                              (stdout st))
            | None => (inl (KeyError key), st)
            end
        | Some (OList _) => (inl TypeError, st)
        | None => (inl SystemError, st)
        end
    | VStr _ | VNone => (inl AttributeError, st)
    end.

(** [v[key] = x] for a string key. *)
Definition setitem (v : value) (key : string) (x : value) : M unit :=
  fun st =>
    match v with
    | VRef l =>
        match heap st !! l with
        | Some (ODict d) =>
            (inr tt, State (<[l := ODict (<[key := x]> d)]> (heap st))
                           (stdout st))
        | Some (OList _) => (inl TypeError, st)
        | None => (inl SystemError, st)
        end
    | VStr _ | VNone => (inl TypeError, st)
    end.

(** A list display [[x1, ..., xn]] builds a new list object. *)
Definition new_list (xs : list value) : M value :=
  fun st =>
    let l := fresh (dom (heap st)) in
    (inr (VRef l), State (<[l := OList xs]> (heap st)) (stdout st)).

End Py.

Import Py.
Local Open Scope py_scope.

(** ** The transform *)

Section Transform.

(** [str_of h l] is the text Python's [str] gives for the dictionary or
    list at [l] in heap [h]. The interpreter's rendering of containers is
    not part of this module, so it stays a parameter. *)
Variable str_of : gmap loc obj -> loc -> string.

(** [str(v)], which is also what [format] splices in for a [{}] field. *)
Definition py_str (h : gmap loc obj) (v : value) : string :=
  match v with
  | VStr s => s
  | VNone => "None"
  | VRef l => str_of h l
  end.

(** [print(v)]: the text of [v] and a line feed go to standard output. *)
Definition print (v : value) : M unit :=
  fun st =>
    (inr tt, State (heap st) (stdout st ++ [py_str (heap st) v ++ Text.nl])).

(** The first line of the fourth command word: the script is written to
    [../script.sh] through a here-document with the quoted delimiter
    [SCRIPT], then run by [bash -e]. *)
Definition opener : string :=
  "cat <<'SCRIPT' > ../script.sh && bash -e ../script.sh".

(** The format string of the source, with its two [\n] and its single
    replacement field. *)
Definition template : string :=
  Eval cbv in opener ++ Text.nl ++ "{}" ++ Text.nl ++ "SCRIPT".

Definition format_exn (e : Text.format_error) : exn :=
  match e with
  | Text.FieldIndex => IndexError
  | Text.FieldSyntax => ValueError
  end.

(** [template.format(script)]. *)
Definition format_script (script : value) : M string :=
  fun st =>
    match Text.str_format template [py_str (heap st) script] with
    | inr text => (inr text, st)
    | inl e => (inl (format_exn e), st)
    end.

(** [script_to_bash_command(script)]: the list
    [["/bin/bash", "--login", "-c", template.format(script)]]. *)
Definition script_to_bash_command (script : value) : M value :=
  text <- format_script script ;;
  new_list [VStr "/bin/bash"; VStr "--login"; VStr "-c"; VStr text].

(** One turn of the [for] loop of [build_task], from the [print] to the
    point where the task is yielded. *)
Definition loop_body (task : value) : M unit :=
  print task ;;
  run <- getitem task "run" ;;
  script <- pop run "script" ;;
  bash_command <- script_to_bash_command script ;;
  run' <- getitem task "run" ;;
  setitem run' "command" bash_command.

(** The generator made by [build_task(config, tasks)], suspended with
    [pending] tasks still to take from [tasks]. Resuming it runs the loop
    body on the next task and yields that task, or finds [tasks]
    exhausted and stops. [config] is never looked at. *)
Definition resume (config : value) (pending : list value)
  : M (option (value * list value)) :=
  match pending with
  | [] => ret None
  | task :: rest => loop_body task ;; ret (Some (task, rest))
  end.

(** What a caller that drains the generator sees: the records yielded, in
    the order they were yielded, the exception that ended the iteration if
    there was one, and the state left behind. *)
Record drained := Drained {
  yielded : list value;
  raised : option exn;
  final : state
}.

(** [build_task(config, tasks)] consumed to the end, as by
    [list(build_task(config, tasks))], from state [st]. The caller does
    nothing between two yields. *)
Fixpoint build_task (config : value) (tasks : list value) (st : state)
  : drained :=
  match tasks with
  | [] => Drained [] None st
  | task :: rest =>
      match loop_body task st with
      | (inl e, st') => Drained [] (Some e) st'
      | (inr _, st') =>
          let d := build_task config rest st' in
          Drained (task :: yielded d) (raised d) (final d)
      end
  end.

End Transform.

(** ** Task records in the heap *)

(** The dictionary stored at [l], if [l] holds one. *)
Definition dict_at (h : gmap loc obj) (l : loc)
  : option (gmap string value) :=
  match h !! l with
  | Some (ODict d) => Some d
  | _ => None
  end.

(** A task record is a dictionary whose [run] field refers to a
    dictionary, its run mapping. [run_mapping h task] is the location and
    the contents of the run mapping of [task] in [h]. *)
Definition run_mapping (h : gmap loc obj) (task : value)
  : option (loc * gmap string value) :=
  match task with
  | VRef t =>
      match dict_at h t with
      | Some d =>
          match d !! "run" with
          | Some (VRef r) =>
              match dict_at h r with
              | Some rm => Some (r, rm)
              | None => None
              end
          | _ => None
          end
      | None => None
      end
  | _ => None
  end.

(** [task] is a task record: a dictionary with a run mapping. *)
Definition is_record (h : gmap loc obj) (task : value) : Prop :=
  is_Some (run_mapping h task).

(** [task] is a record whose run mapping has a [script] key. *)
Definition has_script (h : gmap loc obj) (task : value) : Prop :=
  exists r rm, run_mapping h task = Some (r, rm) /\ is_Some (rm !! "script").

(** [task] is a record whose run mapping has no [script] key. *)
Definition lacks_script (h : gmap loc obj) (task : value) : Prop :=
  exists r rm, run_mapping h task = Some (r, rm) /\ rm !! "script" = None.

(** The location of the run mapping of each record of [tasks]. *)
Definition run_locs (h : gmap loc obj) (tasks : list value) : list loc :=
  omap (fun task => fst <$> run_mapping h task) tasks.

(** The four words of the command built around the script text [body]. *)
Definition command_words (body : string) : list value :=
  [VStr "/bin/bash"; VStr "--login"; VStr "-c";
   VStr (opener ++ Text.nl ++ body ++ Text.nl ++ "SCRIPT")].

(** In heap [h], [task] is the transformed form of what it was in heap
    [h0]: its run mapping is the one it had, without [script] and with
    [command] referring to the list at [c], a location unused in [h0]
    that holds the four command words around the script text. *)
Definition transformed (h0 h : gmap loc obj) (task : value) (c : loc)
  : Prop :=
  exists r rm body,
    run_mapping h0 task = Some (r, rm) /\
    (forall s, rm !! "script" = Some (VStr s) -> body = s) /\
    run_mapping h task
    = Some (r, <["command" := VRef c]> (delete "script" rm)) /\
    (c ∉ dom h0) /\
    h !! c = Some (OList (command_words body)).

(** ** The same objects at other locations *)

(** A second run of the interpreter holds its objects at locations of its
    own. [rename_value f v] is the value [v] of a first run as a second
    run has it, when [f] tells where each object of the first run lives
    in the second. *)
Definition rename_value (f : loc -> loc) (v : value) : value :=
  match v with
  | VRef l => VRef (f l)
  | VStr s => VStr s
  | VNone => VNone
  end.

Definition rename_obj (f : loc -> loc) (o : obj) : obj :=
  match o with
  | ODict d => ODict (rename_value f <$> d)
  | OList xs => OList (rename_value f <$> xs)
  end.

(** [f] with the object at [c1] placed at [c2]. *)
Definition place (f : loc -> loc) (c1 c2 : loc) : loc -> loc :=
  fun l => if decide (l = c1) then c2 else f l.

(** A value that refers to nothing outside the heap. *)
Definition value_in (h : gmap loc obj) (v : value) : Prop :=
  match v with
  | VRef l => l ∈ dom h
  | _ => True
  end.

(** The values an object holds. *)
Definition holds (o : obj) (v : value) : Prop :=
  match o with
  | ODict d => exists key, d !! key = Some v
  | OList xs => v ∈ xs
  end.

(** A heap as Python builds them: every reference leads to an object. *)
Definition closed (h : gmap loc obj) : Prop :=
  forall l o v, h !! l = Some o -> holds o v -> value_in h v.

(** Heap [h2] has the objects of the closed heap [h1], each at the
    location [f] gives, distinct objects at distinct locations, and
    possibly other objects besides. *)
Definition same_heap (f : loc -> loc) (h1 h2 : gmap loc obj) : Prop :=
  closed h1 /\
  (forall l l', l ∈ dom h1 -> l' ∈ dom h1 -> f l = f l' -> l = l') /\
  (forall l o, h1 !! l = Some o -> h2 !! f l = Some (rename_obj f o)).

(** ** Reading a here-document back *)

(** The lines that come before the first line equal to [delim]; nothing
    when no line equals [delim]. *)
Fixpoint upto_delimiter (delim : string) (ls : list string)
  : option (list string) :=
  match ls with
  | [] => None
  | l :: ls' =>
      if String.eqb l delim then Some []
      else cons l <$> upto_delimiter delim ls'
  end.

(** Spec side of the round trip: the text found between the opener line
    and the terminator line of a command word, the way a shell reads a
    here-document whose delimiter is [SCRIPT]. *)
Definition heredoc_body (word : string) : option string :=
  match Text.lines word with
  | first :: rest =>
      if String.eqb first opener
      then Text.unlines <$> upto_delimiter "SCRIPT" rest
      else None
  | [] => None
  end.

(** ** Sample data *)

Module Sample.

(** A script with a line equal to the here-document delimiter. *)
Definition hazard : string :=
  "echo a" +:+ Text.nl +:+ "SCRIPT" +:+ Text.nl +:+ "echo b".

(** A rendering that shows every container the same way. *)
Definition plain_str : gmap loc obj -> loc -> string :=
  fun _ _ => "<object>".

(** One record [{"run": {"script": "exit 1"}}]: the record at 1, its run
    mapping at 2. *)
Definition heap1 : gmap loc obj :=
  <[1%positive := ODict {[ "run" := VRef 2%positive ]}]>
  (<[2%positive := ODict {[ "script" := VStr "exit 1" ]}]> ∅).

(** A record at 1 whose run mapping at 2 has a script and already has a
    command, the list at 3. *)
Definition heap_command : gmap loc obj :=
  <[1%positive := ODict {[ "run" := VRef 2%positive ]}]>
  (<[2%positive := ODict (<[ "script" := VStr "exit 1" ]>
                           {[ "command" := VRef 3%positive ]})]>
  (<[3%positive := OList [VStr "true"]]> ∅)).

(** Two records, at 1 and 3, with run mappings of their own at 2 and 4. *)
Definition heap2 : gmap loc obj :=
  <[1%positive := ODict {[ "run" := VRef 2%positive ]}]>
  (<[2%positive := ODict {[ "script" := VStr "make" ]}]>
  (<[3%positive := ODict {[ "run" := VRef 4%positive ]}]>
  (<[4%positive := ODict {[ "script" := VStr "make check" ]}]> ∅))).

(** A record with a script at 1 and a record [{"run": {}}] at 3, with
    run mappings at 2 and 4. *)
Definition heap_mixed : gmap loc obj :=
  <[1%positive := ODict {[ "run" := VRef 2%positive ]}]>
  (<[2%positive := ODict {[ "script" := VStr "make" ]}]>
  (<[3%positive := ODict {[ "run" := VRef 4%positive ]}]>
  (<[4%positive := ODict ∅]> ∅))).

(** Three tasks that are not records: a dictionary without [run] at 1,
    a dictionary whose [run] is [None] at 2, and a dictionary at 3 whose
    [run] is the list at 4. *)
Definition heap_malformed : gmap loc obj :=
  <[1%positive := ODict {[ "name" := VStr "build" ]}]>
  (<[2%positive := ODict {[ "run" := VNone ]}]>
  (<[3%positive := ODict {[ "run" := VRef 4%positive ]}]>
  (<[4%positive := OList [VStr "make"]]> ∅))).

(** The record of [heap1] as another run holds it: the record at 11 and
    its run mapping at 12, beside an unrelated list at 1. *)
Definition heap1_moved : gmap loc obj :=
  <[1%positive := OList [VStr "other"]]>
  (<[11%positive := ODict {[ "run" := VRef 12%positive ]}]>
  (<[12%positive := ODict {[ "script" := VStr "exit 1" ]}]> ∅)).

(** Where the objects of [heap1] are in [heap1_moved]. *)
Definition moved (l : loc) : loc := (l + 10)%positive.

(** Two records, at 1 and 3, that share the run mapping at 2. *)
Definition heap_shared : gmap loc obj :=
  <[1%positive := ODict {[ "run" := VRef 2%positive ]}]>
  (<[2%positive := ODict {[ "script" := VStr "make" ]}]>
  (<[3%positive := ODict {[ "run" := VRef 2%positive ]}]> ∅)).

End Sample.

(** ** Facts about lines *)

Lemma lines_nonempty (s : string) : Text.lines s <> [].
Proof.
  destruct s as [|c s]; simpl; [discriminate|].
  destruct (Ascii.eqb c Text.LF); [discriminate|].
  destruct (Text.lines s); discriminate.
Qed.

Lemma lines_cons (c : ascii) (s : string) :
  Ascii.eqb c Text.LF = false ->
  exists l ls,
    Text.lines s = l :: ls /\ Text.lines (String c s) = String c l :: ls.
Proof.
  intros Hc. simpl. rewrite Hc.
  destruct (Text.lines s) as [|l ls] eqn:E.
  - exfalso. exact (lines_nonempty s E).
  - exists l, ls. split; reflexivity.
Qed.

(** Splitting a text at a line feed splits its list of lines. *)
Lemma lines_app_nl (s t : string) :
  Text.lines (s +:+ Text.nl +:+ t) = (Text.lines s ++ Text.lines t)%list.
Proof.
  induction s as [|c s IH].
  - reflexivity.
  - destruct (Ascii.eqb c Text.LF) eqn:Hc.
    + change (Text.lines (String c (s +:+ Text.nl +:+ t))
              = (Text.lines (String c s) ++ Text.lines t)%list).
      simpl. rewrite Hc, IH. reflexivity.
    + destruct (lines_cons c s Hc) as (l & ls & E1 & E2).
      rewrite E2.
      change (Text.lines (String c (s +:+ Text.nl +:+ t))
              = (String c l :: ls ++ Text.lines t)%list).
      simpl. rewrite Hc, IH, E1. reflexivity.
Qed.

Lemma unlines_cons (c : ascii) (l : string) (ls : list string) :
  Text.unlines (String c l :: ls) = String c (Text.unlines (l :: ls)).
Proof. destruct ls; reflexivity. Qed.

(** Joining the lines of a text with line feeds gives the text back. *)
Lemma unlines_lines (s : string) : Text.unlines (Text.lines s) = s.
Proof.
  induction s as [|c s IH].
  - reflexivity.
  - destruct (Ascii.eqb c Text.LF) eqn:Hc.
    + apply Ascii.eqb_eq in Hc. subst c. simpl.
      destruct (Text.lines s) as [|l ls] eqn:E.
      * exfalso. exact (lines_nonempty s E).
      * rewrite IH. reflexivity.
    + destruct (lines_cons c s Hc) as (l & ls & E1 & E2).
      rewrite E2, unlines_cons, <- E1, IH. reflexivity.
Qed.

Lemma upto_delimiter_app (delim : string) (ls after : list string) :
  ~ In delim ls ->
  upto_delimiter delim (ls ++ delim :: after) = Some ls.
Proof.
  induction ls as [|l ls IH]; intros Hnot; simpl.
  - rewrite String.eqb_refl. reflexivity.
  - destruct (String.eqb l delim) eqn:E.
    + apply String.eqb_eq in E. exfalso. apply Hnot. left. exact E.
    + rewrite IH; [reflexivity|]. intros Hin. apply Hnot. right. exact Hin.
Qed.

(** The template has one field, so formatting one argument never fails:
    the argument lands between the opener line and the terminator. *)
Lemma str_format_template (body : string) :
  Text.str_format template [body]
  = inr (opener +:+ Text.nl +:+ body +:+ Text.nl +:+ "SCRIPT").
Proof. reflexivity. Qed.

(** ** Facts about the formatter *)

Section FormatterFacts.

Variable str_of : gmap loc obj -> loc -> string.

(** What a call of [script_to_bash_command] does, for any argument: it
    returns a reference to a list allocated at an unused location and
    changes nothing else. *)
Lemma script_to_bash_command_run (script : value) (st : state) :
  script_to_bash_command str_of script st
  = (inr (VRef (fresh (dom (heap st)))),
     State (<[fresh (dom (heap st))
              := OList (command_words (py_str str_of (heap st) script))]>
              (heap st))
           (stdout st)).
Proof.
  unfold script_to_bash_command, bind, format_script.
  rewrite str_format_template. reflexivity.
Qed.

(** C1: for every string [s], [script_to_bash_command(s)] returns a new
    list of exactly four strings, [/bin/bash], [--login], [-c] and the
    opener line, a line feed, [s] as it is, a line feed and [SCRIPT]; for
    [echo hi] the fourth word is the three-line text of the example. *)
Theorem script_to_bash_command_four_words (s : string) (st : state) :
  (exists c,
     (c ∉ dom (heap st)) /\
     script_to_bash_command str_of (VStr s) st
     = (inr (VRef c),
        State (<[c := OList
                   [VStr "/bin/bash"; VStr "--login"; VStr "-c";
                    VStr ("cat <<'SCRIPT' > ../script.sh && bash -e ../script.sh"
                          +:+ Text.nl +:+ s +:+ Text.nl +:+ "SCRIPT")]]>
                 (heap st))
              (stdout st)))
  /\
  (exists c,
     script_to_bash_command str_of (VStr "echo hi") st
     = (inr (VRef c),
        State (<[c := OList
                   [VStr "/bin/bash"; VStr "--login"; VStr "-c";
                    VStr "cat <<'SCRIPT' > ../script.sh && bash -e ../script.sh
echo hi
SCRIPT"]]>
                 (heap st))
              (stdout st))).
Proof.
  split.
  - exists (fresh (dom (heap st))). split.
    + apply is_fresh.
    + apply script_to_bash_command_run.
  - exists (fresh (dom (heap st))). apply script_to_bash_command_run.
Qed.

(** C8: [script_to_bash_command] returns for every string and never
    raises; a script with a line equal to [SCRIPT] is neither detected nor
    rejected, and sits in the fourth word as it is, although reading the
    here-document back then stops at that line. *)
Theorem script_to_bash_command_total (s : string) (st : state) :
  (exists c st',
     script_to_bash_command str_of (VStr s) st = (inr (VRef c), st') /\
     heap st' !! c
     = Some (OList [VStr "/bin/bash"; VStr "--login"; VStr "-c";
                    VStr (opener +:+ Text.nl +:+ s +:+ Text.nl +:+ "SCRIPT")]))
  /\
  (In "SCRIPT" (Text.lines Sample.hazard) /\
   exists c st',
     script_to_bash_command str_of (VStr Sample.hazard) st
     = (inr (VRef c), st') /\
     heap st' !! c
     = Some (OList [VStr "/bin/bash"; VStr "--login"; VStr "-c";
                    VStr (opener +:+ Text.nl +:+ Sample.hazard
                          +:+ Text.nl +:+ "SCRIPT")]) /\
     heredoc_body (opener +:+ Text.nl +:+ Sample.hazard
                   +:+ Text.nl +:+ "SCRIPT")
     = Some "echo a").
Proof.
  split; [|split].
  - eexists _, _. split; [apply script_to_bash_command_run|].
    simpl. apply lookup_insert_eq.
  - vm_compute. tauto.
  - eexists _, _. split; [apply script_to_bash_command_run|].
    split; [simpl; apply lookup_insert_eq|].
    vm_compute. reflexivity.
Qed.

(** C4: when no line of [s] is equal to [SCRIPT], the text between the
    opener line and the terminator line of the fourth word of
    [script_to_bash_command(s)] is [s] again. *)
Theorem heredoc_round_trip (s : string) (st : state) :
  ~ In "SCRIPT" (Text.lines s) ->
  exists c st' w0 w1 w2 word,
    script_to_bash_command str_of (VStr s) st = (inr (VRef c), st') /\
    heap st' !! c = Some (OList [w0; w1; w2; VStr word]) /\
    heredoc_body word = Some s.
Proof.
  intros Hs. eexists _, _, _, _, _, _.
  split; [apply script_to_bash_command_run|].
  split; [simpl; apply lookup_insert_eq|].
  simpl. unfold heredoc_body.
  rewrite lines_app_nl, lines_app_nl.
  change (Text.lines opener) with [opener].
  change (Text.lines "SCRIPT") with ["SCRIPT"].
  simpl app. cbv beta iota. rewrite String.eqb_refl.
  rewrite upto_delimiter_app by exact Hs.
  simpl. rewrite unlines_lines. reflexivity.
Qed.

End FormatterFacts.

Lemma heredoc_round_trip_witness :
  ~ In "SCRIPT" (Text.lines "echo hi") /\
  exists c st' w0 w1 w2 word,
    script_to_bash_command Sample.plain_str (VStr "echo hi") (State ∅ [])
    = (inr (VRef c), st') /\
    heap st' !! c = Some (OList [w0; w1; w2; VStr word]) /\
    heredoc_body word = Some "echo hi".
Proof.
  assert (H : ~ In "SCRIPT" (Text.lines "echo hi")).
  { simpl. intros [E|[]]. discriminate E. }
  split; [exact H|].
  exact (heredoc_round_trip Sample.plain_str "echo hi" (State ∅ []) H).
Defined.

(** ** Facts about one turn of the loop *)

Section LoopFacts.

Variable str_of : gmap loc obj -> loc -> string.

Lemma dict_at_Some (h : gmap loc obj) (l : loc) (d : gmap string value) :
  dict_at h l = Some d <-> h !! l = Some (ODict d).
Proof.
  unfold dict_at. destruct (h !! l) as [[d'|xs]|]; split; intros E;
    try discriminate E; congruence.
Qed.

(** A task with a run mapping is a reference to a dictionary whose [run]
    field refers to that mapping. *)
Lemma run_mapping_Some (h : gmap loc obj) (task : value)
      (r : loc) (rm : gmap string value) :
  run_mapping h task = Some (r, rm) <->
  exists t d,
    task = VRef t /\ h !! t = Some (ODict d) /\
    d !! "run" = Some (VRef r) /\ h !! r = Some (ODict rm).
Proof.
  split.
  - destruct task as [s| |t]; simpl; try discriminate.
    destruct (dict_at h t) as [d|] eqn:Ed; [|discriminate].
    destruct (d !! "run") as [[s| |r']|] eqn:Er; try discriminate.
    destruct (dict_at h r') as [rm'|] eqn:Erm; [|discriminate].
    intros E. injection E as -> ->.
    exists t, d. rewrite <- !dict_at_Some. auto.
  - intros (t & d & -> & Ht & Hr & Hrm). simpl.
    apply dict_at_Some in Ht, Hrm. rewrite Ht, Hr, Hrm. reflexivity.
Qed.

(** Stepping through a sequence of operations. *)
Lemma bind_ok {A B} (c : M A) (k : A -> M B) (st st' : state) (a : A) :
  c st = (inr a, st') -> bind c k st = k a st'.
Proof. intros E. unfold bind. rewrite E. reflexivity. Qed.

Lemma bind_raise {A B} (c : M A) (k : A -> M B) (st st' : state) (e : exn) :
  c st = (inl e, st') -> bind c k st = (inl e, st').
Proof. intros E. unfold bind. rewrite E. reflexivity. Qed.

Lemma getitem_dict (l : loc) (d : gmap string value) (key : string)
      (x : value) (st : state) :
  heap st !! l = Some (ODict d) -> d !! key = Some x ->
  getitem (VRef l) key st = (inr x, st).
Proof. intros Hl Hk. unfold getitem. rewrite Hl, Hk. reflexivity. Qed.

Lemma pop_dict (l : loc) (d : gmap string value) (key : string)
      (x : value) (st : state) :
  heap st !! l = Some (ODict d) -> d !! key = Some x ->
  pop (VRef l) key st
  = (inr x, State (<[l := ODict (delete key d)]> (heap st)) (stdout st)).
Proof. intros Hl Hk. unfold pop. rewrite Hl, Hk. reflexivity. Qed.

Lemma pop_missing (l : loc) (d : gmap string value) (key : string)
      (st : state) :
  heap st !! l = Some (ODict d) -> d !! key = None ->
  pop (VRef l) key st = (inl (KeyError key), st).
Proof. intros Hl Hk. unfold pop. rewrite Hl, Hk. reflexivity. Qed.

Lemma setitem_dict (l : loc) (d : gmap string value) (key : string)
      (x : value) (st : state) :
  heap st !! l = Some (ODict d) ->
  setitem (VRef l) key x st
  = (inr tt, State (<[l := ODict (<[key := x]> d)]> (heap st)) (stdout st)).
Proof. intros Hl. unfold setitem. rewrite Hl. reflexivity. Qed.

Lemma print_run (v : value) (st : state) :
  print str_of v st
  = (inr tt,
     State (heap st) (stdout st ++ [py_str str_of (heap st) v +:+ Text.nl])).
Proof. reflexivity. Qed.

(** The heap after a turn of the loop that found the run mapping [rm] of
    the task at [r]: the mapping has lost [script] and has the new list,
    stored at the unused location [c], as its [command]. *)
Lemma loop_body_ok (task : value) (r : loc) (rm : gmap string value)
      (script : value) (st : state) :
  run_mapping (heap st) task = Some (r, rm) ->
  rm !! "script" = Some script ->
  loop_body str_of task st
  = (inr tt,
     State (<[r := ODict (<["command" := VRef (fresh (dom (heap st)))]>
                            (delete "script" rm))]>
              (<[fresh (dom (heap st))
                 := OList (command_words
                             (py_str str_of
                                (<[r := ODict (delete "script" rm)]> (heap st))
                                script))]>
                 (heap st)))
           (stdout st ++ [py_str str_of (heap st) task +:+ Text.nl])).
Proof.
  intros Hrun Hscript.
  apply run_mapping_Some in Hrun as (t & d & -> & Ht & Hr & Hrm).
  destruct st as [h out]. cbn [heap stdout] in *.
  set (h1 := <[r := ODict (delete "script" rm)]> h).
  assert (Hdom : dom h1 = dom h).
  { apply dom_insert_lookup_L. rewrite Hrm. eauto. }
  assert (Hc : fresh (dom h) ∉ dom h) by apply is_fresh.
  assert (Hcr : fresh (dom h) <> r).
  { intros E. apply Hc. rewrite E. apply elem_of_dom. rewrite Hrm. eauto. }
  assert (Hct : fresh (dom h) <> t).
  { intros E. apply Hc. rewrite E. apply elem_of_dom. rewrite Ht. eauto. }
  set (c := fresh (dom h)) in *.
  set (cmd := OList (command_words (py_str str_of h1 script))).
  assert (Hrun' : exists d',
            <[c := cmd]> h1 !! t = Some (ODict d')
            /\ d' !! "run" = Some (VRef r)).
  { rewrite lookup_insert_ne by exact Hct. unfold h1.
    destruct (decide (r = t)) as [->|Hrt].
    - rewrite lookup_insert_eq. eexists. split; [reflexivity|].
      rewrite lookup_delete_ne by discriminate. congruence.
    - rewrite lookup_insert_ne by exact Hrt. eauto. }
  destruct Hrun' as (d' & Ht' & Hr').
  unfold loop_body.
  erewrite bind_ok by apply print_run. cbn [heap stdout].
  erewrite bind_ok by (eapply getitem_dict; cbn [heap]; eassumption).
  erewrite bind_ok by (eapply pop_dict; cbn [heap]; eassumption).
  cbn [heap stdout]. fold h1.
  erewrite bind_ok by apply script_to_bash_command_run.
  cbn [heap stdout]. rewrite Hdom. fold c. fold cmd.
  erewrite bind_ok by (eapply getitem_dict; cbn [heap]; eassumption).
  erewrite setitem_dict; cbn [heap stdout].
  2:{ rewrite lookup_insert_ne by exact Hcr. apply lookup_insert_eq. }
  do 2 f_equal. unfold h1.
  rewrite (insert_insert_ne _ c r) by exact Hcr.
  rewrite insert_insert_eq. reflexivity.
Qed.

(** A turn of the loop on a record without [script]: the task is printed,
    [pop] raises [KeyError], and the heap is as it was. *)
Lemma loop_body_missing (task : value) (r : loc) (rm : gmap string value)
      (st : state) :
  run_mapping (heap st) task = Some (r, rm) ->
  rm !! "script" = None ->
  loop_body str_of task st
  = (inl (KeyError "script"),
     State (heap st)
           (stdout st ++ [py_str str_of (heap st) task +:+ Text.nl])).
Proof.
  intros Hrun Hscript.
  apply run_mapping_Some in Hrun as (t & d & -> & Ht & Hr & Hrm).
  unfold loop_body.
  erewrite bind_ok by apply print_run.
  erewrite bind_ok by (eapply getitem_dict; cbn [heap]; eassumption).
  erewrite bind_raise; [reflexivity|].
  eapply pop_missing; cbn [heap]; eassumption.
Qed.

(** A turn of the loop only succeeds on a record whose run mapping has a
    [script]. *)
Lemma loop_body_inv (task : value) (st st' : state) (u : unit) :
  loop_body str_of task st = (inr u, st') ->
  exists r rm script,
    run_mapping (heap st) task = Some (r, rm) /\
    rm !! "script" = Some script.
Proof.
  unfold loop_body, bind at 1 2 3, print, getitem at 1, pop.
  destruct task as [s| |t]; cbn [heap stdout]; try discriminate.
  destruct (heap st !! t) as [[d|xs]|] eqn:Ht; try discriminate.
  destruct (d !! "run") as [run|] eqn:Hr; try discriminate.
  destruct run as [s| |r]; cbn [heap stdout]; try discriminate.
  destruct (heap st !! r) as [[rm|xs]|] eqn:Hrm; try discriminate.
  destruct (rm !! "script") as [script|] eqn:Hs; try discriminate.
  intros _. exists r, rm, script. split; [|exact Hs].
  apply run_mapping_Some. exists t, d. auto.
Qed.

(** How the run mapping of any record looks after a dictionary [rm] at
    [r] has had [script] removed and [command] set to a list allocated at
    an unused location [c]. The mapping at [r] is the only one that
    changed, and no [run] field moved. *)
Lemma run_mapping_after (h : gmap loc obj) (r c : loc)
      (rm : gmap string value) (cmd : obj) (task : value)
      (r' : loc) (rm' : gmap string value) :
  h !! r = Some (ODict rm) ->
  c ∉ dom h ->
  run_mapping h task = Some (r', rm') ->
  run_mapping
    (<[r := ODict (<["command" := VRef c]> (delete "script" rm))]>
       (<[c := cmd]> h))
    task
  = Some (r', if decide (r' = r)
              then <["command" := VRef c]> (delete "script" rm)
              else rm').
Proof.
  intros Hrm Hc Hrun.
  apply run_mapping_Some in Hrun as (t & d & -> & Ht & Hr & Hrm').
  assert (Hct : c <> t).
  { intros ->. apply Hc, elem_of_dom. rewrite Ht. eauto. }
  assert (Hcr' : c <> r').
  { intros ->. apply Hc, elem_of_dom. rewrite Hrm'. eauto. }
  apply run_mapping_Some.
  destruct (decide (t = r)) as [->|Htr].
  - assert (d = rm) as -> by congruence.
    eexists r, _. split; [reflexivity|].
    split; [apply lookup_insert_eq|].
    split.
    + rewrite lookup_insert_ne by discriminate.
      rewrite lookup_delete_ne by discriminate. exact Hr.
    + destruct (decide (r' = r)) as [->|Hne].
      * apply lookup_insert_eq.
      * rewrite lookup_insert_ne by congruence.
        rewrite lookup_insert_ne by exact Hcr'. exact Hrm'.
  - exists t, d. split; [reflexivity|].
    split.
    { rewrite lookup_insert_ne by congruence.
      rewrite lookup_insert_ne by exact Hct. exact Ht. }
    split; [exact Hr|].
    destruct (decide (r' = r)) as [->|Hne].
    + apply lookup_insert_eq.
    + rewrite lookup_insert_ne by congruence.
      rewrite lookup_insert_ne by exact Hcr'. exact Hrm'.
Qed.

(** ** Facts about the drained generator *)

Lemma build_task_cons_ok (config task : value) (rest : list value)
      (st st' : state) (u : unit) :
  loop_body str_of task st = (inr u, st') ->
  build_task str_of config (task :: rest) st
  = Drained (task :: yielded (build_task str_of config rest st'))
            (raised (build_task str_of config rest st'))
            (final (build_task str_of config rest st')).
Proof. intros E. simpl. rewrite E. reflexivity. Qed.

Lemma build_task_cons_raise (config task : value) (rest : list value)
      (st st' : state) (e : exn) :
  loop_body str_of task st = (inl e, st') ->
  build_task str_of config (task :: rest) st = Drained [] (Some e) st'.
Proof. intros E. simpl. rewrite E. reflexivity. Qed.

(** Draining is resuming until the generator stops or raises. *)
Lemma build_task_resume (config : value) (tasks : list value) (st : state) :
  build_task str_of config tasks st
  = match resume str_of config tasks st with
    | (inl e, st') => Drained [] (Some e) st'
    | (inr None, st') => Drained [] None st'
    | (inr (Some (task, rest)), st') =>
        Drained (task :: yielded (build_task str_of config rest st'))
                (raised (build_task str_of config rest st'))
                (final (build_task str_of config rest st'))
    end.
Proof.
  destruct tasks as [|task rest]; [reflexivity|].
  simpl. unfold bind, ret.
  destruct (loop_body str_of task st) as [[e|[]] st']; reflexivity.
Qed.

(** Draining a longer sequence goes through the shorter one first, and
    goes on only if that did not raise. *)
Lemma build_task_app (config : value) (before after : list value)
      (st : state) :
  build_task str_of config (before ++ after) st
  = match raised (build_task str_of config before st) with
    | Some e => build_task str_of config before st
    | None =>
        let d := build_task str_of config after
                   (final (build_task str_of config before st)) in
        Drained (yielded (build_task str_of config before st) ++ yielded d)
                (raised d) (final d)
    end.
Proof.
  revert st. induction before as [|task before IH]; intros st.
  - simpl. destruct (build_task str_of config after st); reflexivity.
  - simpl. destruct (loop_body str_of task st) as [[e|u] st'].
    + reflexivity.
    + rewrite IH. cbn [raised yielded final].
      destruct (raised (build_task str_of config before st')) eqn:E.
      * destruct (build_task str_of config before st'). simpl in *.
        rewrite E. reflexivity.
      * reflexivity.
Qed.

(** The records yielded are always the first records of the input, in
    the order of the input: all of them when nothing was raised. *)
Lemma build_task_yields_prefix (config : value) (tasks : list value)
      (st : state) :
  exists rest,
    tasks = (yielded (build_task str_of config tasks st) ++ rest)%list /\
    (raised (build_task str_of config tasks st) = None -> rest = []).
Proof.
  revert st. induction tasks as [|task tasks IH]; intros st.
  - exists []. split; reflexivity.
  - simpl. destruct (loop_body str_of task st) as [[e|u] st'].
    + exists (task :: tasks). split; [reflexivity|discriminate].
    + destruct (IH st') as (rest & E & Hnone).
      exists rest. cbn [yielded raised]. split; [|exact Hnone].
      simpl. f_equal. exact E.
Qed.

Lemma build_task_yields_all (config : value) (tasks : list value)
      (st : state) :
  raised (build_task str_of config tasks st) = None ->
  yielded (build_task str_of config tasks st) = tasks.
Proof.
  intros Hnone.
  destruct (build_task_yields_prefix config tasks st) as (rest & E & Hrest).
  rewrite (Hrest Hnone), app_nil_r in E. symmetry. exact E.
Qed.

(** C2: when the generator reaches a record whose run mapping has no
    [script] key, resuming it raises [KeyError] for that key instead of
    yielding; a caller draining the generator gets the records before
    that one and then the [KeyError], which nothing catches. *)
Theorem build_task_missing_script (config : value)
        (before : list value) (task : value) (after : list value)
        (st : state) :
  raised (build_task str_of config before st) = None ->
  lacks_script (heap (final (build_task str_of config before st))) task ->
  (exists st',
     resume str_of config (task :: after)
       (final (build_task str_of config before st))
     = (inl (KeyError "script"), st') /\
     heap st' = heap (final (build_task str_of config before st))) /\
  yielded (build_task str_of config (before ++ task :: after) st) = before /\
  raised (build_task str_of config (before ++ task :: after) st)
  = Some (KeyError "script").
Proof.
  intros Hnone (r & rm & Hrun & Hscript).
  pose proof (loop_body_missing task r rm _ Hrun Hscript) as Hbody.
  split.
  - eexists. split.
    + unfold resume. erewrite bind_raise by exact Hbody. reflexivity.
    + reflexivity.
  - rewrite build_task_app, Hnone. cbn [yielded raised].
    rewrite (build_task_cons_raise config task after _ _ _ Hbody).
    cbn [yielded raised]. rewrite app_nil_r.
    split; [|reflexivity].
    apply build_task_yields_all. exact Hnone.
Qed.

(** What one successful turn of the loop leaves behind, with the record
    seen through [run_mapping] again. *)
Lemma loop_body_record (task : value) (r : loc) (rm : gmap string value)
      (script : value) (st : state) :
  run_mapping (heap st) task = Some (r, rm) ->
  rm !! "script" = Some script ->
  exists st' c body,
    loop_body str_of task st = (inr tt, st') /\
    (c ∉ dom (heap st)) /\
    body = py_str str_of (<[r := ODict (delete "script" rm)]> (heap st))
             script /\
    heap st' = <[r := ODict (<["command" := VRef c]> (delete "script" rm))]>
                 (<[c := OList (command_words body)]> (heap st)) /\
    stdout st' = (stdout st ++ [py_str str_of (heap st) task +:+ Text.nl])%list /\
    run_mapping (heap st') task
    = Some (r, <["command" := VRef c]> (delete "script" rm)) /\
    heap st' !! c = Some (OList (command_words body)).
Proof.
  intros Hrun Hscript.
  assert (Hc : fresh (dom (heap st)) ∉ dom (heap st)) by apply is_fresh.
  assert (Hrm : heap st !! r = Some (ODict rm)).
  { apply run_mapping_Some in Hrun as (t & d & _ & _ & _ & Hrm). exact Hrm. }
  eexists _, (fresh (dom (heap st))), _.
  split; [apply (loop_body_ok task r rm script st Hrun Hscript)|].
  split; [exact Hc|]. split; [reflexivity|].
  cbn [heap stdout]. split; [reflexivity|]. split; [reflexivity|].
  split.
  - erewrite run_mapping_after by eassumption.
    rewrite decide_True by reflexivity. reflexivity.
  - rewrite lookup_insert_ne; [apply lookup_insert_eq|].
    intros E. apply Hc. rewrite <- E. apply elem_of_dom. rewrite Hrm. eauto.
Qed.

Lemma resume_ok (config task : value) (rest : list value)
      (st st' : state) (u : unit) :
  loop_body str_of task st = (inr u, st') ->
  resume str_of config (task :: rest) st = (inr (Some (task, rest)), st').
Proof.
  intros E. unfold resume. erewrite bind_ok by exact E. reflexivity.
Qed.

(** C3: resuming the generator on a record whose run mapping has the
    string [s] as [script] and no [command] yields that record with
    [script] gone from the run mapping and [command] set to a list of
    exactly four words: [/bin/bash], [--login], [-c], and the text with
    [s] between the opener line and the [SCRIPT] terminator. *)
Theorem build_task_sets_command (config task : value) (rest : list value)
        (r : loc) (rm : gmap string value) (s : string) (st : state) :
  run_mapping (heap st) task = Some (r, rm) ->
  rm !! "script" = Some (VStr s) ->
  rm !! "command" = None ->
  exists st' rm' c,
    resume str_of config (task :: rest) st
    = (inr (Some (task, rest)), st') /\
    run_mapping (heap st') task = Some (r, rm') /\
    rm' !! "script" = None /\
    rm' !! "command" = Some (VRef c) /\
    heap st' !! c
    = Some (OList [VStr "/bin/bash"; VStr "--login"; VStr "-c";
                   VStr (opener +:+ Text.nl +:+ s +:+ Text.nl +:+ "SCRIPT")]).
Proof.
  intros Hrun Hscript _.
  destruct (loop_body_record task r rm (VStr s) st Hrun Hscript)
    as (st' & c & body & Hbody & _ & -> & _ & _ & Hrun' & Hcmd).
  exists st', (<["command" := VRef c]> (delete "script" rm)), c.
  split; [exact (resume_ok config task rest st st' tt Hbody)|].
  split; [exact Hrun'|].
  split.
  { rewrite lookup_insert_ne by discriminate. apply lookup_delete_eq. }
  split; [apply lookup_insert_eq|exact Hcmd].
Qed.

(** C9: a [command] already present in the run mapping does not stop the
    transform and is not kept: [command] becomes the newly built list of
    four words, an object that did not exist before the turn. *)
Theorem build_task_overwrites_command (config task : value)
        (rest : list value) (r : loc) (rm : gmap string value)
        (script old : value) (st : state) :
  run_mapping (heap st) task = Some (r, rm) ->
  rm !! "script" = Some script ->
  rm !! "command" = Some old ->
  exists st' rm' c body,
    resume str_of config (task :: rest) st
    = (inr (Some (task, rest)), st') /\
    run_mapping (heap st') task = Some (r, rm') /\
    rm' !! "command" = Some (VRef c) /\
    (c ∉ dom (heap st)) /\
    heap st' !! c
    = Some (OList [VStr "/bin/bash"; VStr "--login"; VStr "-c";
                   VStr (opener +:+ Text.nl +:+ body +:+ Text.nl
                         +:+ "SCRIPT")]) /\
    (forall s, script = VStr s -> body = s).
Proof.
  intros Hrun Hscript _.
  destruct (loop_body_record task r rm script st Hrun Hscript)
    as (st' & c & body & Hbody & Hc & Hb & _ & _ & Hrun' & Hcmd).
  exists st', (<["command" := VRef c]> (delete "script" rm)), c, body.
  split; [exact (resume_ok config task rest st st' tt Hbody)|].
  split; [exact Hrun'|].
  split; [apply lookup_insert_eq|].
  split; [exact Hc|].
  split; [exact Hcmd|].
  intros s ->. exact Hb.
Qed.

(** C10: the transform is not idempotent. Once [build_task] has yielded a
    record, running [build_task] on that record again raises [KeyError]
    for [script] and yields nothing. *)
Theorem build_task_not_idempotent (config config' task : value)
        (st : state) :
  raised (build_task str_of config [task] st) = None ->
  yielded (build_task str_of config [task] st) = [task] /\
  (exists r rm' c,
     run_mapping (heap (final (build_task str_of config [task] st))) task
     = Some (r, rm') /\
     rm' !! "script" = None /\ rm' !! "command" = Some (VRef c)) /\
  yielded (build_task str_of config' [task]
             (final (build_task str_of config [task] st))) = [] /\
  raised (build_task str_of config' [task]
            (final (build_task str_of config [task] st)))
  = Some (KeyError "script").
Proof.
  intros Hnone.
  destruct (loop_body str_of task st) as [[e|u] st1] eqn:Hbody.
  { rewrite (build_task_cons_raise config task [] st st1 e Hbody) in Hnone.
    discriminate Hnone. }
  destruct (loop_body_inv task st st1 u Hbody) as (r & rm & script & Hrun & Hs).
  destruct (loop_body_record task r rm script st Hrun Hs)
    as (st' & c & body & Hbody' & _ & _ & _ & _ & Hrun' & _).
  assert (st1 = st') as -> by congruence.
  rewrite (build_task_cons_ok config task [] st st' u Hbody).
  cbn [build_task yielded raised final].
  assert (Hgone : (<["command" := VRef c]> (delete "script" rm))
                    !! "script" = None).
  { rewrite lookup_insert_ne by discriminate. apply lookup_delete_eq. }
  split; [reflexivity|]. split.
  { eexists r, _, c. split; [exact Hrun'|].
    split; [exact Hgone|apply lookup_insert_eq]. }
  rewrite (loop_body_missing task r _ st' Hrun' Hgone).
  split; reflexivity.
Qed.

(** ** Records that do not share a run mapping *)

Lemma run_locs_cons (h : gmap loc obj) (task : value) (rest : list value)
      (r : loc) (rm : gmap string value) :
  run_mapping h task = Some (r, rm) ->
  run_locs h (task :: rest) = r :: run_locs h rest.
Proof. intros E. unfold run_locs. simpl. rewrite E. reflexivity. Qed.

(** A turn of the loop on the mapping at [r] leaves every record with
    another run mapping as it was. *)
Lemma others_after (h : gmap loc obj) (r c : loc) (rm : gmap string value)
      (cmd : obj) (rest : list value) :
  h !! r = Some (ODict rm) ->
  c ∉ dom h ->
  Forall (has_script h) rest ->
  r ∉ run_locs h rest ->
  Forall (has_script
            (<[r := ODict (<["command" := VRef c]> (delete "script" rm))]>
               (<[c := cmd]> h))) rest /\
  run_locs (<[r := ODict (<["command" := VRef c]> (delete "script" rm))]>
              (<[c := cmd]> h)) rest
  = run_locs h rest.
Proof.
  intros Hrm Hc Hall. induction Hall as [|task rest Htask Hall IH];
    intros Hnot.
  - split; [constructor|reflexivity].
  - destruct Htask as (r' & rm' & Hrun & Hscript).
    rewrite (run_locs_cons h task rest r' rm' Hrun) in Hnot.
    apply not_elem_of_cons in Hnot as [Hne Hnot].
    destruct (IH Hnot) as [IH1 IH2].
    pose proof (run_mapping_after h r c rm cmd task r' rm' Hrm Hc Hrun)
      as Hrun'.
    rewrite decide_False in Hrun' by congruence.
    split.
    + constructor; [|exact IH1]. exists r', rm'. split; assumption.
    + rewrite (run_locs_cons _ task rest r' rm' Hrun'), IH2.
      symmetry. apply (run_locs_cons h task rest r' rm' Hrun).
Qed.

(** Records stay records through a turn of the loop. *)
Lemma records_after (h : gmap loc obj) (r c : loc) (rm : gmap string value)
      (cmd : obj) (rest : list value) :
  h !! r = Some (ODict rm) ->
  c ∉ dom h ->
  Forall (is_record h) rest ->
  Forall (is_record
            (<[r := ODict (<["command" := VRef c]> (delete "script" rm))]>
               (<[c := cmd]> h))) rest.
Proof.
  intros Hrm Hc Hall. induction Hall as [|task rest [[r' rm'] Hrun] _ IH].
  - constructor.
  - constructor; [|exact IH]. unfold is_record.
    rewrite (run_mapping_after h r c rm cmd task r' rm' Hrm Hc Hrun).
    eauto.
Qed.

(** Over task records, the only way the drained generator stops early is
    a record without [script] when its turn comes: the yields are the
    records before it, and the exception is the [KeyError]. *)
Lemma build_task_cut_short (config : value) (tasks : list value)
      (st : state) :
  Forall (is_record (heap st)) tasks ->
  exists rest,
    tasks = (yielded (build_task str_of config tasks st) ++ rest)%list /\
    ((raised (build_task str_of config tasks st) = None /\ rest = []) \/
     (exists task rest',
        rest = task :: rest' /\
        raised (build_task str_of config tasks st)
        = Some (KeyError "script") /\
        lacks_script (heap (final (build_task str_of config tasks st)))
          task)).
Proof.
  revert st. induction tasks as [|task tasks IH]; intros st Hall.
  - exists []. split; [reflexivity|]. left. split; reflexivity.
  - apply Forall_cons in Hall as [[[r rm] Hrun] Hrest].
    destruct (rm !! "script") as [script|] eqn:Hs.
    + destruct (loop_body_record task r rm script st Hrun Hs)
        as (st' & c & body & Hbody & Hc & _ & Hheap & _ & _ & _).
      assert (Hrm : heap st !! r = Some (ODict rm)).
      { apply run_mapping_Some in Hrun as (t & d & _ & _ & _ & Hrm).
        exact Hrm. }
      pose proof (records_after (heap st) r c rm
                    (OList (command_words body)) tasks Hrm Hc Hrest)
        as Hrest'.
      rewrite <- Hheap in Hrest'.
      destruct (IH st' Hrest') as (rest & E & Hend).
      rewrite (build_task_cons_ok config task tasks st st' tt Hbody).
      cbn [yielded raised final].
      exists rest. split; [simpl; f_equal; exact E|exact Hend].
    + pose proof (loop_body_missing task r rm st Hrun Hs) as Hbody.
      rewrite (build_task_cons_raise config task tasks st _ _ Hbody).
      cbn [yielded raised final heap].
      exists (task :: tasks). split; [reflexivity|]. right.
      exists task, tasks. split; [reflexivity|]. split; [reflexivity|].
      exists r, rm. split; assumption.
Qed.

Lemma has_script_is_record (h : gmap loc obj) (task : value) :
  has_script h task -> is_record h task.
Proof. intros (r & rm & Hrun & _). unfold is_record. rewrite Hrun. eauto. Qed.

Lemma build_task_complete (config : value) (tasks : list value)
      (st : state) :
  Forall (has_script (heap st)) tasks ->
  NoDup (run_locs (heap st) tasks) ->
  raised (build_task str_of config tasks st) = None.
Proof.
  revert st. induction tasks as [|task rest IH]; intros st Hall Hnodup.
  - reflexivity.
  - apply Forall_cons in Hall as [(r & rm & Hrun & [script Hs]) Hrest].
    rewrite (run_locs_cons _ task rest r rm Hrun) in Hnodup.
    apply NoDup_cons in Hnodup as [Hnot Hnodup].
    destruct (loop_body_record task r rm script st Hrun Hs)
      as (st' & c & body & Hbody & Hc & _ & Hheap & _ & _ & _).
    rewrite (build_task_cons_ok config task rest st st' tt Hbody).
    cbn [raised].
    assert (Hrm : heap st !! r = Some (ODict rm)).
    { apply run_mapping_Some in Hrun as (t & d & _ & _ & _ & Hrm).
      exact Hrm. }
    destruct (others_after (heap st) r c rm (OList (command_words body))
                rest Hrm Hc Hrest Hnot) as [Hall' Hlocs'].
    rewrite <- Hheap in Hall', Hlocs'.
    apply IH; [exact Hall'|]. rewrite Hlocs'. exact Hnodup.
Qed.

(** A record found without [script] when its turn comes ends the
    iteration: the yields are the records before it. *)
Lemma build_task_stops_at (config : value) (before : list value)
      (task : value) (after : list value) (st : state) :
  raised (build_task str_of config before st) = None ->
  lacks_script (heap (final (build_task str_of config before st))) task ->
  yielded (build_task str_of config (before ++ task :: after) st) = before /\
  raised (build_task str_of config (before ++ task :: after) st)
  = Some (KeyError "script").
Proof.
  intros Hnone (r & rm & Hrun & Hscript).
  pose proof (loop_body_missing task r rm _ Hrun Hscript) as Hbody.
  rewrite build_task_app, Hnone. cbn [yielded raised].
  rewrite (build_task_cons_raise config task after _ _ _ Hbody).
  cbn [yielded raised]. rewrite app_nil_r.
  split; [|reflexivity].
  apply build_task_yields_all. exact Hnone.
Qed.

(** A record found with a [script] when its turn comes is yielded, and
    the iteration goes on. *)
Lemma build_task_goes_on (config : value) (before : list value)
      (task : value) (st : state) :
  raised (build_task str_of config before st) = None ->
  has_script (heap (final (build_task str_of config before st))) task ->
  yielded (build_task str_of config (before ++ [task]) st)
  = (before ++ [task])%list /\
  raised (build_task str_of config (before ++ [task]) st) = None.
Proof.
  intros Hnone (r & rm & Hrun & [script Hs]).
  destruct (loop_body_record task r rm script _ Hrun Hs)
    as (st' & c & body & Hbody & _).
  rewrite build_task_app, Hnone. cbn [yielded raised].
  rewrite (build_task_cons_ok config task [] _ st' tt Hbody).
  cbn [build_task yielded raised].
  split; [|reflexivity].
  rewrite (build_task_yields_all config before st Hnone). reflexivity.
Qed.

(** C5: over task records, the output is the input cut short at the first
    record found without [script] when its turn comes. Such a record
    stops the output, which is then the records before it, and
    [KeyError] is raised; a record found with a [script] is yielded and
    the iteration goes on; and the output ends early in no other way.
    When every record has a [script] and no two records share their run
    mapping, nothing is raised and the output is the whole input: as many
    records, in the same order. *)
Theorem build_task_yields_every_record (config : value)
        (tasks : list value) (st : state) :
  Forall (is_record (heap st)) tasks ->
  (exists rest,
     tasks = (yielded (build_task str_of config tasks st) ++ rest)%list /\
     ((raised (build_task str_of config tasks st) = None /\ rest = []) \/
      (exists task rest',
         rest = task :: rest' /\
         raised (build_task str_of config tasks st)
         = Some (KeyError "script") /\
         lacks_script (heap (final (build_task str_of config tasks st)))
           task))) /\
  (forall before task after,
     tasks = (before ++ task :: after)%list ->
     raised (build_task str_of config before st) = None ->
     (lacks_script (heap (final (build_task str_of config before st))) task ->
      yielded (build_task str_of config tasks st) = before /\
      raised (build_task str_of config tasks st)
      = Some (KeyError "script")) /\
     (has_script (heap (final (build_task str_of config before st))) task ->
      yielded (build_task str_of config (before ++ [task]) st)
      = (before ++ [task])%list /\
      raised (build_task str_of config (before ++ [task]) st) = None)) /\
  (Forall (has_script (heap st)) tasks ->
   NoDup (run_locs (heap st) tasks) ->
   raised (build_task str_of config tasks st) = None /\
   yielded (build_task str_of config tasks st) = tasks /\
   length (yielded (build_task str_of config tasks st)) = length tasks).
Proof.
  intros Hrec. split; [|split].
  - apply build_task_cut_short. exact Hrec.
  - intros before task after -> Hnone. split.
    + apply build_task_stops_at. exact Hnone.
    + apply build_task_goes_on. exact Hnone.
  - intros Hall Hnodup.
    pose proof (build_task_complete config tasks st Hall Hnodup) as Hnone.
    rewrite (build_task_yields_all config tasks st Hnone). auto.
Qed.

(** ** What a turn of the loop touches *)

(** C6: the only effects of the transform on a record are the removal
    of [script] from its run mapping and the addition of [command]. The
    run mapping has every other key as before; the one new object is the
    command list, whose words are fixed by the script alone; every other
    object of the heap, the task record and the configuration object
    among them, is what it was. The configuration is never looked at: any
    other one gives the same result. Nothing is written but the line of
    [print(task)], the logging that the spec leaves out of its scope. *)
Theorem build_task_frame (config config' task : value) (rest : list value)
        (r : loc) (rm : gmap string value) (script : value) (st : state) :
  run_mapping (heap st) task = Some (r, rm) ->
  rm !! "script" = Some script ->
  exists st' c,
    resume str_of config (task :: rest) st
    = (inr (Some (task, rest)), st') /\
    resume str_of config' (task :: rest) st
    = (inr (Some (task, rest)), st') /\
    (c ∉ dom (heap st)) /\
    dom (heap st') = {[c]} ∪ dom (heap st) /\
    (forall l, l <> r -> l <> c -> heap st' !! l = heap st !! l) /\
    (exists rm',
       heap st' !! r = Some (ODict rm') /\
       rm' !! "script" = None /\
       rm' !! "command" = Some (VRef c) /\
       forall key, key <> "script" -> key <> "command" ->
                   rm' !! key = rm !! key) /\
    (exists body,
       heap st' !! c
       = Some (OList [VStr "/bin/bash"; VStr "--login"; VStr "-c";
                      VStr (opener +:+ Text.nl +:+ body +:+ Text.nl
                            +:+ "SCRIPT")]) /\
       forall s, script = VStr s -> body = s) /\
    stdout st'
    = (stdout st ++ [py_str str_of (heap st) task +:+ Text.nl])%list.
Proof.
  intros Hrun Hscript.
  destruct (loop_body_record task r rm script st Hrun Hscript)
    as (st' & c & body & Hbody & Hc & Hb & Hheap & Hout & _ & Hcmd).
  assert (Hrm : heap st !! r = Some (ODict rm)).
  { apply run_mapping_Some in Hrun as (t & d & _ & _ & _ & Hrm). exact Hrm. }
  exists st', c.
  split; [exact (resume_ok config task rest st st' tt Hbody)|].
  split; [exact (resume_ok config' task rest st st' tt Hbody)|].
  split; [exact Hc|].
  split.
  { rewrite Hheap, dom_insert_lookup_L; [apply dom_insert_L|].
    rewrite lookup_insert_ne, Hrm; [eauto|].
    intros ->. apply Hc, elem_of_dom. rewrite Hrm. eauto. }
  split.
  { intros l Hlr Hlc. rewrite Hheap.
    rewrite lookup_insert_ne by congruence.
    apply lookup_insert_ne. congruence. }
  split.
  { eexists. split.
    { rewrite Hheap. apply lookup_insert_eq. }
    split.
    { rewrite lookup_insert_ne by discriminate. apply lookup_delete_eq. }
    split; [apply lookup_insert_eq|].
    intros key Hk1 Hk2.
    rewrite lookup_insert_ne by congruence.
    apply lookup_delete_ne. congruence. }
  split; [|exact Hout].
  exists body. split; [exact Hcmd|].
  intros s ->. exact Hb.
Qed.

End LoopFacts.

(** ** The theorems at sample records *)

Lemma build_task_missing_script_witness :
  (exists st',
     resume Sample.plain_str VNone [VRef 3%positive]
       (final (build_task Sample.plain_str VNone [VRef 1%positive]
                 (State Sample.heap_mixed [])))
     = (inl (KeyError "script"), st') /\
     heap st'
     = heap (final (build_task Sample.plain_str VNone [VRef 1%positive]
                      (State Sample.heap_mixed [])))) /\
  yielded (build_task Sample.plain_str VNone
             ([VRef 1%positive] ++ [VRef 3%positive])
             (State Sample.heap_mixed []))
  = [VRef 1%positive] /\
  raised (build_task Sample.plain_str VNone
            ([VRef 1%positive] ++ [VRef 3%positive])
            (State Sample.heap_mixed []))
  = Some (KeyError "script").
Proof.
  apply (build_task_missing_script Sample.plain_str VNone
           [VRef 1%positive] (VRef 3%positive) []
           (State Sample.heap_mixed [])).
  - vm_compute. reflexivity.
  - exists 4%positive, ∅. split; vm_compute; reflexivity.
Defined.

Lemma build_task_sets_command_witness :
  exists st' rm' c,
    resume Sample.plain_str VNone [VRef 1%positive] (State Sample.heap1 [])
    = (inr (Some (VRef 1%positive, [])), st') /\
    run_mapping (heap st') (VRef 1%positive) = Some (2%positive, rm') /\
    rm' !! "script" = None /\
    rm' !! "command" = Some (VRef c) /\
    heap st' !! c
    = Some (OList [VStr "/bin/bash"; VStr "--login"; VStr "-c";
                   VStr (opener +:+ Text.nl +:+ "exit 1" +:+ Text.nl
                         +:+ "SCRIPT")]).
Proof.
  apply (build_task_sets_command Sample.plain_str VNone (VRef 1%positive) []
           2%positive {[ "script" := VStr "exit 1" ]} "exit 1"
           (State Sample.heap1 [])).
  - vm_compute. reflexivity.
  - vm_compute. reflexivity.
  - vm_compute. reflexivity.
Defined.

Lemma build_task_overwrites_command_witness :
  exists st' rm' c body,
    resume Sample.plain_str VNone [VRef 1%positive]
      (State Sample.heap_command [])
    = (inr (Some (VRef 1%positive, [])), st') /\
    run_mapping (heap st') (VRef 1%positive) = Some (2%positive, rm') /\
    rm' !! "command" = Some (VRef c) /\
    (c ∉ dom (heap (State Sample.heap_command []))) /\
    heap st' !! c
    = Some (OList [VStr "/bin/bash"; VStr "--login"; VStr "-c";
                   VStr (opener +:+ Text.nl +:+ body +:+ Text.nl
                         +:+ "SCRIPT")]) /\
    (forall s, VStr "exit 1" = VStr s -> body = s).
Proof.
  apply (build_task_overwrites_command Sample.plain_str VNone
           (VRef 1%positive) [] 2%positive
           (<[ "script" := VStr "exit 1" ]> {[ "command" := VRef 3%positive ]})
           (VStr "exit 1") (VRef 3%positive)
           (State Sample.heap_command [])).
  - vm_compute. reflexivity.
  - vm_compute. reflexivity.
  - vm_compute. reflexivity.
Defined.

Lemma build_task_not_idempotent_witness :
  yielded (build_task Sample.plain_str VNone [VRef 1%positive]
             (State Sample.heap1 []))
  = [VRef 1%positive] /\
  (exists r rm' c,
     run_mapping
       (heap (final (build_task Sample.plain_str VNone [VRef 1%positive]
                       (State Sample.heap1 []))))
       (VRef 1%positive)
     = Some (r, rm') /\
     rm' !! "script" = None /\ rm' !! "command" = Some (VRef c)) /\
  yielded (build_task Sample.plain_str VNone [VRef 1%positive]
             (final (build_task Sample.plain_str VNone [VRef 1%positive]
                       (State Sample.heap1 []))))
  = [] /\
  raised (build_task Sample.plain_str VNone [VRef 1%positive]
            (final (build_task Sample.plain_str VNone [VRef 1%positive]
                      (State Sample.heap1 []))))
  = Some (KeyError "script").
Proof.
  apply (build_task_not_idempotent Sample.plain_str VNone VNone
           (VRef 1%positive) (State Sample.heap1 [])).
  vm_compute. reflexivity.
Defined.

Lemma build_task_yields_every_record_witness :
  raised (build_task Sample.plain_str VNone
            [VRef 1%positive; VRef 3%positive] (State Sample.heap2 []))
  = None /\
  yielded (build_task Sample.plain_str VNone
             [VRef 1%positive; VRef 3%positive] (State Sample.heap2 []))
  = [VRef 1%positive; VRef 3%positive] /\
  length (yielded (build_task Sample.plain_str VNone
                     [VRef 1%positive; VRef 3%positive]
                     (State Sample.heap2 [])))
  = length [VRef 1%positive; VRef 3%positive].
Proof.
  assert (Hall : Forall (has_script Sample.heap2)
                   [VRef 1%positive; VRef 3%positive]).
  { repeat apply Forall_cons_2; [| |apply Forall_nil_2].
    - exists 2%positive, {[ "script" := VStr "make" ]}.
      split; [vm_compute; reflexivity|].
      exists (VStr "make"). vm_compute. reflexivity.
    - exists 4%positive, {[ "script" := VStr "make check" ]}.
      split; [vm_compute; reflexivity|].
      exists (VStr "make check"). vm_compute. reflexivity. }
  apply (proj2 (proj2
           (build_task_yields_every_record Sample.plain_str VNone
              [VRef 1%positive; VRef 3%positive] (State Sample.heap2 [])
              (Forall_impl _ _ _ Hall
                 (has_script_is_record Sample.heap2))))).
  - exact Hall.
  - change (NoDup [2%positive; 4%positive]).
    apply NoDup_cons_2; [|apply NoDup_singleton].
    intros Hin. apply list_elem_of_singleton in Hin. discriminate Hin.
Defined.

Lemma build_task_frame_witness :
  exists st' c,
    resume Sample.plain_str VNone [VRef 1%positive] (State Sample.heap1 [])
    = (inr (Some (VRef 1%positive, [])), st') /\
    resume Sample.plain_str (VRef 1%positive) [VRef 1%positive]
      (State Sample.heap1 [])
    = (inr (Some (VRef 1%positive, [])), st') /\
    (c ∉ dom Sample.heap1) /\
    dom (heap st') = {[c]} ∪ dom Sample.heap1 /\
    (forall l, l <> 2%positive -> l <> c ->
               heap st' !! l = Sample.heap1 !! l) /\
    (exists rm',
       heap st' !! 2%positive = Some (ODict rm') /\
       rm' !! "script" = None /\
       rm' !! "command" = Some (VRef c) /\
       forall key, key <> "script" -> key <> "command" ->
                   rm' !! key
                   = ({[ "script" := VStr "exit 1" ]} : gmap string value)
                       !! key) /\
    (exists body,
       heap st' !! c
       = Some (OList [VStr "/bin/bash"; VStr "--login"; VStr "-c";
                      VStr (opener +:+ Text.nl +:+ body +:+ Text.nl
                            +:+ "SCRIPT")]) /\
       forall s, VStr "exit 1" = VStr s -> body = s) /\
    stdout st'
    = ([] ++ [py_str Sample.plain_str Sample.heap1 (VRef 1%positive)
              +:+ Text.nl])%list.
Proof.
  apply (build_task_frame Sample.plain_str VNone (VRef 1%positive)
           (VRef 1%positive) [] 2%positive
           {[ "script" := VStr "exit 1" ]} (VStr "exit 1")
           (State Sample.heap1 [])).
  - vm_compute. reflexivity.
  - vm_compute. reflexivity.
Defined.

(** ** Where the spec's wording goes further than the code *)

(** Two records that share one run mapping both have a [script] before
    the transform runs, and so has a record listed twice; yet only the
    first turn finds it: one record is yielded and the second turn raises
    [KeyError]. *)
Lemma build_task_shared_run_mapping :
  (Forall (has_script Sample.heap_shared)
     [VRef 1%positive; VRef 3%positive] /\
   yielded (build_task Sample.plain_str VNone
              [VRef 1%positive; VRef 3%positive]
              (State Sample.heap_shared []))
   = [VRef 1%positive] /\
   raised (build_task Sample.plain_str VNone
             [VRef 1%positive; VRef 3%positive]
             (State Sample.heap_shared []))
   = Some (KeyError "script")) /\
  (Forall (has_script Sample.heap1) [VRef 1%positive; VRef 1%positive] /\
   yielded (build_task Sample.plain_str VNone
              [VRef 1%positive; VRef 1%positive] (State Sample.heap1 []))
   = [VRef 1%positive] /\
   raised (build_task Sample.plain_str VNone
             [VRef 1%positive; VRef 1%positive] (State Sample.heap1 []))
   = Some (KeyError "script")).
Proof.
  split; (split; [|split; vm_compute; reflexivity]).
  - repeat apply Forall_cons_2; [| |apply Forall_nil_2];
      (exists 2%positive, {[ "script" := VStr "make" ]};
       split; [vm_compute; reflexivity|];
       exists (VStr "make"); vm_compute; reflexivity).
  - repeat apply Forall_cons_2; [| |apply Forall_nil_2];
      (exists 2%positive, {[ "script" := VStr "exit 1" ]};
       split; [vm_compute; reflexivity|];
       exists (VStr "exit 1"); vm_compute; reflexivity).
Qed.

(** ** More on one turn of the loop *)

Section TurnFacts.

Variable str_of : gmap loc obj -> loc -> string.

(** A turn that raises has printed the task and done nothing else: the
    heap is the one it started from. It was not run on a record with a
    [script]. *)
Lemma loop_body_raise (task : value) (st st' : state) (e : exn) :
  loop_body str_of task st = (inl e, st') ->
  st' = State (heap st)
              (stdout st ++ [py_str str_of (heap st) task +:+ Text.nl]) /\
  ~ has_script (heap st) task.
Proof.
  intros H. split.
  - destruct (run_mapping (heap st) task) as [[r rm]|] eqn:Hrun.
    + destruct (rm !! "script") as [script|] eqn:Hs.
      * rewrite (loop_body_ok str_of task r rm script st Hrun Hs) in H.
        discriminate H.
      * rewrite (loop_body_missing str_of task r rm st Hrun Hs) in H.
        congruence.
    + revert H Hrun.
      unfold loop_body, bind at 1 2 3, print, getitem at 1, pop,
        run_mapping, dict_at.
      destruct task as [s| |t]; cbn [heap stdout]; try congruence.
      destruct (heap st !! t) as [[d|xs]|]; try congruence.
      destruct (d !! "run") as [[s| |r]|]; cbn [heap stdout];
        try congruence.
      destruct (heap st !! r) as [[rm|xs]|]; congruence.
  - intros (r & rm & Hrun & [script Hs]).
    rewrite (loop_body_ok str_of task r rm script st Hrun Hs) in H.
    discriminate H.
Qed.

(** X1: resuming the generator yields its next task exactly when that
    task is a record whose run mapping has a [script]; nothing else about
    the record or the script matters. *)
Theorem resume_yields_iff (config task : value) (rest : list value)
        (st : state) :
  (exists st',
     resume str_of config (task :: rest) st
     = (inr (Some (task, rest)), st'))
  <-> has_script (heap st) task.
Proof.
  split.
  - intros [st' H]. unfold resume, bind in H.
    destruct (loop_body str_of task st) as [[e|u] st1] eqn:Hbody.
    + discriminate H.
    + destruct (loop_body_inv str_of task st st1 u Hbody)
        as (r & rm & script & Hrun & Hs).
      exists r, rm. split; [exact Hrun|]. rewrite Hs. eauto.
  - intros (r & rm & Hrun & [script Hs]).
    destruct (loop_body_record str_of task r rm script st Hrun Hs)
      as (st' & c & body & Hbody & _).
    exists st'. exact (resume_ok str_of config task rest st st' tt Hbody).
Qed.

(** X2: when draining raises, the exception comes from the first task
    that was not yielded, and that task was not a record with a
    [script]. The failed turn changed no object: the heap is the one the
    yielded records alone leave, so no record is ever left with its
    [script] removed and no [command]. *)
Theorem build_task_failure_point (config : value) (tasks : list value)
        (st : state) (e : exn) :
  raised (build_task str_of config tasks st) = Some e ->
  exists task rest,
    tasks
    = (yielded (build_task str_of config tasks st) ++ task :: rest)%list /\
    ~ has_script (heap (final (build_task str_of config tasks st))) task /\
    raised (build_task str_of config
              (yielded (build_task str_of config tasks st)) st)
    = None /\
    heap (final (build_task str_of config tasks st))
    = heap (final (build_task str_of config
                     (yielded (build_task str_of config tasks st)) st)).
Proof.
  revert st. induction tasks as [|task tasks IH]; intros st Hraised.
  - discriminate Hraised.
  - destruct (loop_body str_of task st) as [[e'|u] st1] eqn:Hbody.
    + rewrite (build_task_cons_raise str_of config task tasks st st1 e' Hbody).
      cbn [yielded final build_task raised].
      destruct (loop_body_raise task st st1 e' Hbody) as [-> Hno].
      exists task, tasks. cbn [heap]. auto.
    + rewrite (build_task_cons_ok str_of config task tasks st st1 u Hbody)
        in Hraised |- *.
      cbn [yielded raised final] in Hraised |- *.
      destruct (IH st1 Hraised) as (task' & rest & E & Hno & Hnone & Hheap).
      exists task', rest.
      rewrite (build_task_cons_ok str_of config task _ st st1 u Hbody).
      cbn [yielded raised final].
      split; [simpl; f_equal; exact E|]. auto.
Qed.

(** X3: a task that is a dictionary without a [run] key makes the
    generator raise [KeyError] for [run]; the task has been printed and
    the heap is unchanged. *)
Theorem build_task_missing_run (config : value) (t : loc)
        (d : gmap string value) (rest : list value) (st : state) :
  heap st !! t = Some (ODict d) ->
  d !! "run" = None ->
  resume str_of config (VRef t :: rest) st
  = (inl (KeyError "run"),
     State (heap st)
           (stdout st ++ [py_str str_of (heap st) (VRef t) +:+ Text.nl])) /\
  yielded (build_task str_of config (VRef t :: rest) st) = [] /\
  raised (build_task str_of config (VRef t :: rest) st)
  = Some (KeyError "run").
Proof.
  intros Ht Hr.
  assert (Hbody : loop_body str_of (VRef t) st
                  = (inl (KeyError "run"),
                     State (heap st)
                           (stdout st ++ [py_str str_of (heap st) (VRef t)
                                          +:+ Text.nl]))).
  { unfold loop_body. erewrite bind_ok by apply print_run.
    apply bind_raise. unfold getitem. cbn [heap]. rewrite Ht, Hr.
    reflexivity. }
  split.
  - unfold resume. apply bind_raise. exact Hbody.
  - rewrite (build_task_cons_raise str_of config (VRef t) rest st _ _ Hbody).
    split; reflexivity.
Qed.

(** X4: a record whose [run] field is not a dictionary stops the
    generator at [pop]. A string or [None] has no [pop], which is an
    [AttributeError]; a list has a [pop] that refuses a string index,
    which is a [TypeError]. The heap is unchanged in both cases. *)
Theorem build_task_run_not_mapping (config : value) (t : loc)
        (d : gmap string value) (run : value) (rest : list value)
        (st : state) :
  heap st !! t = Some (ODict d) ->
  d !! "run" = Some run ->
  ((run = VNone \/ exists s, run = VStr s) ->
   raised (build_task str_of config (VRef t :: rest) st)
   = Some AttributeError /\
   heap (final (build_task str_of config (VRef t :: rest) st)) = heap st) /\
  (forall l xs,
     run = VRef l -> heap st !! l = Some (OList xs) ->
     raised (build_task str_of config (VRef t :: rest) st)
     = Some TypeError /\
     heap (final (build_task str_of config (VRef t :: rest) st)) = heap st).
Proof.
  intros Ht Hr.
  assert (Hstep : forall e,
            pop run "script"
              (State (heap st)
                 (stdout st ++ [py_str str_of (heap st) (VRef t)
                                +:+ Text.nl]))
            = (inl e,
               State (heap st)
                 (stdout st ++ [py_str str_of (heap st) (VRef t)
                                +:+ Text.nl])) ->
            raised (build_task str_of config (VRef t :: rest) st) = Some e /\
            heap (final (build_task str_of config (VRef t :: rest) st))
            = heap st).
  { intros e Hpop.
    assert (Hbody : loop_body str_of (VRef t) st
                    = (inl e,
                       State (heap st)
                         (stdout st ++ [py_str str_of (heap st) (VRef t)
                                        +:+ Text.nl]))).
    { unfold loop_body. erewrite bind_ok by apply print_run.
      erewrite bind_ok
        by (eapply getitem_dict; cbn [heap]; eassumption).
      apply bind_raise. exact Hpop. }
    rewrite (build_task_cons_raise str_of config (VRef t) rest st _ _ Hbody).
    split; reflexivity. }
  split.
  - intros [->|[s ->]]; apply Hstep; reflexivity.
  - intros l xs -> Hl. apply Hstep. unfold pop. cbn [heap]. rewrite Hl.
    reflexivity.
Qed.

End TurnFacts.

(** ** The whole sequence *)

Section DrainFacts.

Variable str_of : gmap loc obj -> loc -> string.

(** A run location holds a dictionary. *)
Lemma run_locs_dict (h : gmap loc obj) (tasks : list value) (l : loc) :
  l ∈ run_locs h tasks -> exists rm, h !! l = Some (ODict rm).
Proof.
  unfold run_locs. intros Hin.
  apply list_elem_of_omap in Hin as (task & _ & Hl).
  destruct (run_mapping h task) as [[r rm]|] eqn:Hrun; [|discriminate Hl].
  injection Hl as <-.
  apply run_mapping_Some in Hrun as (t & d & _ & _ & _ & Hrm). eauto.
Qed.

Lemma transformed_fresh (h0 h : gmap loc obj) (tasks : list value)
      (cs : list loc) :
  Forall2 (transformed h0 h) tasks cs -> forall c, c ∈ cs -> c ∉ dom h0.
Proof.
  induction 1 as [|task c tasks cs Ht _ IH]; intros c' Hin.
  - apply elem_of_nil in Hin. destruct Hin.
  - apply elem_of_cons in Hin as [->|Hin]; [|exact (IH c' Hin)].
    destruct Ht as (r & rm & body & _ & _ & _ & Hc & _). exact Hc.
Qed.

(** Records transformed since a later heap are transformed since an
    earlier one in which they had the same run mapping. *)
Lemma transformed_since (h0 h1 h : gmap loc obj) (r : loc)
      (tasks : list value) (cs : list loc) :
  dom h0 ⊆ dom h1 ->
  Forall (has_script h0) tasks ->
  r ∉ run_locs h0 tasks ->
  (forall task r' rm',
      run_mapping h0 task = Some (r', rm') -> r' <> r ->
      run_mapping h1 task = Some (r', rm')) ->
  Forall2 (transformed h1 h) tasks cs ->
  Forall2 (transformed h0 h) tasks cs.
Proof.
  intros Hdom Hall Hnot Hsame H2. revert Hall Hnot.
  induction H2 as [|task c tasks cs Ht _ IH]; intros Hall Hnot.
  - constructor.
  - apply Forall_cons in Hall as [(r0 & rm0 & Hrun0 & _) Hall].
    rewrite (run_locs_cons h0 task tasks r0 rm0 Hrun0) in Hnot.
    apply not_elem_of_cons in Hnot as [Hne Hnot].
    constructor; [|exact (IH Hall Hnot)].
    destruct Ht as (r1 & rm1 & body & Hrun1 & Hbody & Hrun & Hc & Hcmd).
    assert (Hrun1' : run_mapping h1 task = Some (r0, rm0)).
    { apply Hsame; [exact Hrun0|congruence]. }
    assert (r1 = r0 /\ rm1 = rm0) as [-> ->].
    { split; congruence. }
    exists r0, rm0, body. repeat split; try assumption.
    intros Hin. apply Hc, Hdom, Hin.
Qed.

(** What draining does to the heap when every record has a [script] and
    no two records share their run mapping. *)
Lemma build_task_drain (config : value) (tasks : list value) (st : state) :
  Forall (has_script (heap st)) tasks ->
  NoDup (run_locs (heap st) tasks) ->
  (forall l o,
      heap st !! l = Some o -> l ∉ run_locs (heap st) tasks ->
      heap (final (build_task str_of config tasks st)) !! l = Some o) /\
  (forall task r rm,
      run_mapping (heap st) task = Some (r, rm) ->
      r ∉ run_locs (heap st) tasks ->
      run_mapping (heap (final (build_task str_of config tasks st))) task
      = Some (r, rm)) /\
  exists cs,
    Forall2 (transformed (heap st)
               (heap (final (build_task str_of config tasks st))))
      tasks cs /\
    NoDup cs /\
    dom (heap (final (build_task str_of config tasks st)))
    = list_to_set cs ∪ dom (heap st).
Proof.
  revert st. induction tasks as [|task rest IH]; intros st Hall Hnodup.
  - cbn [build_task final]. split; [auto|]. split; [auto|].
    exists []. split; [constructor|]. split; [constructor|].
    rewrite list_to_set_nil. symmetry. apply (left_id_L ∅ (∪)).
  - apply Forall_cons in Hall as [(r & rm & Hrun & [script Hs]) Hrest].
    rewrite (run_locs_cons _ task rest r rm Hrun) in Hnodup |- *.
    apply NoDup_cons in Hnodup as [Hnot Hnodup].
    destruct (loop_body_record str_of task r rm script st Hrun Hs)
      as (st' & c & body & Hbody & Hc & Hb & Hheap & _ & Hrun' & Hcmd).
    rewrite (build_task_cons_ok str_of config task rest st st' tt Hbody).
    cbn [final].
    assert (Hrm : heap st !! r = Some (ODict rm)).
    { apply run_mapping_Some in Hrun as (t & d & _ & _ & _ & Hrm).
      exact Hrm. }
    destruct (others_after (heap st) r c rm (OList (command_words body))
                rest Hrm Hc Hrest Hnot) as [Hall' Hlocs'].
    rewrite <- Hheap in Hall', Hlocs'.
    assert (Hnodup' : NoDup (run_locs (heap st') rest)).
    { rewrite Hlocs'. exact Hnodup. }
    destruct (IH st' Hall' Hnodup') as (Hobj & Hmap & cs & Hcs & Hnd & Hdom).
    rewrite Hlocs' in Hobj, Hmap.
    assert (Hsame : forall task0 r0 rm0,
               run_mapping (heap st) task0 = Some (r0, rm0) -> r0 <> r ->
               run_mapping (heap st') task0 = Some (r0, rm0)).
    { intros task0 r0 rm0 Hrun0 Hne. rewrite Hheap.
      rewrite (run_mapping_after (heap st) r c rm _ task0 r0 rm0
                 Hrm Hc Hrun0).
      rewrite decide_False by exact Hne. reflexivity. }
    assert (Hdom' : dom (heap st') = {[c]} ∪ dom (heap st)).
    { rewrite Hheap, dom_insert_lookup_L; [apply dom_insert_L|].
      rewrite lookup_insert_ne, Hrm; [eauto|].
      intros ->. apply Hc, elem_of_dom. rewrite Hrm. eauto. }
    assert (Hcrest : c ∉ run_locs (heap st) rest).
    { intros Hin. apply run_locs_dict in Hin as [rm0 Hin].
      apply Hc, elem_of_dom. rewrite Hin. eauto. }
    split; [|split].
    + intros l o Hl Hnotl.
      apply not_elem_of_cons in Hnotl as [Hlr Hnotl].
      apply Hobj; [|exact Hnotl].
      rewrite Hheap, lookup_insert_ne by congruence.
      rewrite lookup_insert_ne; [exact Hl|].
      intros ->. apply Hc, elem_of_dom. rewrite Hl. eauto.
    + intros task0 r0 rm0 Hrun0 Hnot0.
      apply not_elem_of_cons in Hnot0 as [Hne Hnot0].
      apply Hmap; [|exact Hnot0]. apply Hsame; assumption.
    + exists (c :: cs). split; [|split].
      * constructor.
        -- exists r, rm, body. split; [exact Hrun|].
           split. { intros s Hs'. rewrite Hb.
                    assert (script = VStr s) as -> by congruence.
                    reflexivity. }
           split; [exact (Hmap task r _ Hrun' Hnot)|].
           split; [exact Hc|].
           exact (Hobj c _ Hcmd Hcrest).
        -- apply (transformed_since (heap st) (heap st') _ r rest cs);
             try assumption.
           rewrite Hdom'. apply union_subseteq_r.
      * apply NoDup_cons_2; [|exact Hnd].
        intros Hin. apply (transformed_fresh _ _ _ _ Hcs c Hin).
        rewrite Hdom'. apply elem_of_union_l, elem_of_singleton.
        reflexivity.
      * rewrite Hdom, Hdom', list_to_set_cons.
        rewrite (assoc_L (∪)), (comm_L (∪) (list_to_set cs) {[c]}).
        reflexivity.
Qed.

(** X5: when every record has a [script] and no two records share their
    run mapping, draining the generator leaves every record of the input
    transformed: its run mapping is the one it had, without [script] and
    with [command] referring to a list of the four command words, built
    around the script itself when the script is a string. *)
Theorem build_task_transforms_all (config : value) (tasks : list value)
        (st : state) :
  Forall (has_script (heap st)) tasks ->
  NoDup (run_locs (heap st) tasks) ->
  raised (build_task str_of config tasks st) = None /\
  Forall (fun task =>
            exists c,
              transformed (heap st)
                (heap (final (build_task str_of config tasks st))) task c)
    tasks.
Proof.
  intros Hall Hnodup.
  split; [exact (build_task_complete str_of config tasks st Hall Hnodup)|].
  destruct (build_task_drain config tasks st Hall Hnodup)
    as (_ & _ & cs & Hcs & _).
  revert Hcs. clear Hall Hnodup.
  generalize (heap (final (build_task str_of config tasks st))).
  intros hf Hcs.
  induction Hcs as [|task c tasks' cs' Ht _ IH]; constructor.
  - exists c. exact Ht.
  - exact IH.
Qed.

(** X6: every record gets a command list of its own. The lists are new
    objects, none of them in the heap before the run, and no two records
    of the input end up with the same list. *)
Theorem build_task_command_lists_distinct (config : value)
        (tasks : list value) (st : state) :
  Forall (has_script (heap st)) tasks ->
  NoDup (run_locs (heap st) tasks) ->
  exists cs,
    NoDup cs /\
    Forall2 (fun task c =>
               (c ∉ dom (heap st)) /\
               exists r rm,
                 run_mapping
                   (heap (final (build_task str_of config tasks st))) task
                 = Some (r, rm) /\
                 rm !! "command" = Some (VRef c))
      tasks cs.
Proof.
  intros Hall Hnodup.
  destruct (build_task_drain config tasks st Hall Hnodup)
    as (_ & _ & cs & Hcs & Hnd & _).
  exists cs. split; [exact Hnd|].
  eapply Forall2_impl; [exact Hcs|].
  intros task c (r & rm & body & _ & _ & Hrun & Hc & _).
  split; [exact Hc|]. eexists r, _. split; [exact Hrun|].
  apply lookup_insert_eq.
Qed.

(** X7: over such an input the run mappings are the only objects that
    change: every other object of the heap is the same after the run, and
    the heap has grown by exactly one object per record, its command
    list. *)
Theorem build_task_drain_frame (config : value) (tasks : list value)
        (st : state) :
  Forall (has_script (heap st)) tasks ->
  NoDup (run_locs (heap st) tasks) ->
  (forall l o,
      heap st !! l = Some o -> l ∉ run_locs (heap st) tasks ->
      heap (final (build_task str_of config tasks st)) !! l = Some o) /\
  size (dom (heap (final (build_task str_of config tasks st))))
  = size (dom (heap st)) + length tasks.
Proof.
  intros Hall Hnodup.
  destruct (build_task_drain config tasks st Hall Hnodup)
    as (Hobj & _ & cs & Hcs & Hnd & Hdom).
  split; [exact Hobj|].
  rewrite Hdom, size_union.
  - rewrite size_list_to_set by exact Hnd.
    rewrite (Forall2_length _ _ _ Hcs). lia.
  - intros c Hin1 Hin2. apply elem_of_list_to_set in Hin1.
    exact (transformed_fresh _ _ _ _ Hcs c Hin1 Hin2).
Qed.

(** X8: a sequence can be drained in two parts. When the first part
    raises nothing, the second part is drained from the state the first
    left and its yields follow the first's; when the first part raises,
    the second part is never touched. *)
Theorem build_task_in_chunks (config : value) (before after : list value)
        (st : state) :
  (raised (build_task str_of config before st) = None ->
   yielded (build_task str_of config (before ++ after) st)
   = (before ++ yielded (build_task str_of config after
                           (final (build_task str_of config before st))))%list
   /\
   raised (build_task str_of config (before ++ after) st)
   = raised (build_task str_of config after
               (final (build_task str_of config before st))) /\
   final (build_task str_of config (before ++ after) st)
   = final (build_task str_of config after
              (final (build_task str_of config before st)))) /\
  (forall e,
     raised (build_task str_of config before st) = Some e ->
     build_task str_of config (before ++ after) st
     = build_task str_of config before st).
Proof.
  split.
  - intros Hnone. rewrite build_task_app, Hnone. cbn [yielded raised final].
    rewrite (build_task_yields_all str_of config before st Hnone).
    auto.
  - intros e He. rewrite build_task_app, He. reflexivity.
Qed.

(** X9: two records that share one run mapping cannot both be
    transformed. The first turn takes the [script] away, so the turn of
    the second record, be it the same record again, raises [KeyError]. *)
Theorem build_task_shared_mapping_raises (config t1 t2 : value)
        (rest : list value) (r : loc) (rm rm2 : gmap string value)
        (st : state) :
  run_mapping (heap st) t1 = Some (r, rm) ->
  is_Some (rm !! "script") ->
  run_mapping (heap st) t2 = Some (r, rm2) ->
  yielded (build_task str_of config (t1 :: t2 :: rest) st) = [t1] /\
  raised (build_task str_of config (t1 :: t2 :: rest) st)
  = Some (KeyError "script").
Proof.
  intros Hrun1 [script Hs] Hrun2.
  destruct (loop_body_record str_of t1 r rm script st Hrun1 Hs)
    as (st' & c & body & Hbody & Hc & _ & Hheap & _ & _ & _).
  assert (Hrm : heap st !! r = Some (ODict rm)).
  { apply run_mapping_Some in Hrun1 as (t & d & _ & _ & _ & Hrm).
    exact Hrm. }
  pose proof (run_mapping_after (heap st) r c rm
                (OList (command_words body)) t2 r rm2 Hrm Hc Hrun2)
    as Hrun2'.
  rewrite decide_True, <- Hheap in Hrun2' by reflexivity.
  assert (Hgone : (<["command" := VRef c]> (delete "script" rm))
                    !! "script" = None).
  { rewrite lookup_insert_ne by discriminate. apply lookup_delete_eq. }
  rewrite (build_task_cons_ok str_of config t1 _ st st' tt Hbody).
  rewrite (build_task_cons_raise str_of config t2 rest st' _ _
             (loop_body_missing str_of t2 r _ st' Hrun2' Hgone)).
  split; reflexivity.
Qed.

(** Whatever a turn does, it has printed its task, once. *)
Lemma loop_body_stdout (task : value) (st st' : state) (res : exn + unit) :
  loop_body str_of task st = (res, st') ->
  stdout st'
  = (stdout st ++ [py_str str_of (heap st) task +:+ Text.nl])%list.
Proof.
  intros H. destruct res as [e|u].
  - destruct (loop_body_raise str_of task st st' e H) as [-> _].
    reflexivity.
  - destruct (loop_body_inv str_of task st st' u H)
      as (r & rm & script & Hrun & Hs).
    rewrite (loop_body_ok str_of task r rm script st Hrun Hs) in H.
    injection H as _ <-. reflexivity.
Qed.

(** X10: the transform prints every task it takes, before working on it.
    Draining adds to standard output one chunk for each record yielded
    and one more for the task that raised, if one did, in the order of
    the input. The chunk of a task is the text of that task and a line
    feed, the text taken in the heap that the turns before it left: its
    own turn has not touched the task yet. *)
Theorem build_task_prints_each_task (config : value) (tasks : list value)
        (st : state) :
  exists written,
    stdout (final (build_task str_of config tasks st))
    = (stdout st ++ written)%list /\
    length written
    = length (yielded (build_task str_of config tasks st))
      + match raised (build_task str_of config tasks st) with
        | Some _ => 1
        | None => 0
        end /\
    forall i task,
      tasks !! i = Some task ->
      i < length written ->
      written !! i
      = Some (py_str str_of
                (heap (final (build_task str_of config (take i tasks) st)))
                task
              +:+ Text.nl).
Proof.
  revert st. induction tasks as [|task tasks IH]; intros st.
  - exists []. split; [symmetry; apply app_nil_r|].
    split; [reflexivity|]. intros i task _ Hi. simpl in Hi. lia.
  - destruct (loop_body str_of task st) as [[e|u] st1] eqn:Hbody.
    + rewrite (build_task_cons_raise str_of config task tasks st st1 e Hbody).
      cbn [yielded raised final].
      exists [py_str str_of (heap st) task +:+ Text.nl].
      split; [exact (loop_body_stdout task st st1 _ Hbody)|].
      split; [reflexivity|].
      intros i task' Hi Hlen. simpl in Hlen.
      assert (i = 0) as -> by lia.
      simpl in Hi. injection Hi as <-. reflexivity.
    + rewrite (build_task_cons_ok str_of config task tasks st st1 u Hbody).
      cbn [yielded raised final].
      destruct (IH st1) as (written & Hout & Hlen & Hchunk).
      exists ((py_str str_of (heap st) task +:+ Text.nl) :: written).
      split.
      { rewrite Hout, (loop_body_stdout task st st1 _ Hbody).
        rewrite <- app_assoc. reflexivity. }
      split; [simpl; rewrite Hlen; reflexivity|].
      intros [|i] task' Hi Hi'.
      * simpl in Hi. injection Hi as <-. reflexivity.
      * simpl in Hi, Hi'. cbn [take].
        rewrite (build_task_cons_ok str_of config task _ st st1 u Hbody).
        cbn [final lookup list_lookup].
        apply Hchunk; [exact Hi|lia].
Qed.

End DrainFacts.

(** ** More on the formatter *)

Lemma length_append (s t : string) :
  String.length (s +:+ t) = String.length s + String.length t.
Proof.
  induction s as [|c s IH]; [reflexivity|].
  change (S (String.length (s +:+ t)) = S (String.length s) + String.length t).
  rewrite IH. reflexivity.
Qed.

Lemma append_inv_tail (s t u : string) : s +:+ u = t +:+ u -> s = t.
Proof.
  revert t. induction s as [|c s IH]; intros [|c' t] E.
  - reflexivity.
  - apply (f_equal String.length) in E.
    rewrite !length_append in E. cbn [String.length] in E. lia.
  - apply (f_equal String.length) in E.
    rewrite !length_append in E. cbn [String.length] in E. lia.
  - change (String c (s +:+ u) = String c' (t +:+ u)) in E.
    injection E as -> E. f_equal. exact (IH t E).
Qed.

(** A list that has [d] splits at the first [d]. *)
Lemma in_split_first (d : string) (ls : list string) :
  In d ls ->
  exists pre post, ls = (pre ++ d :: post)%list /\ ~ In d pre.
Proof.
  induction ls as [|l ls IH]; intros Hin; [destruct Hin|].
  destruct (string_dec l d) as [->|Hne].
  - exists [], ls. split; [reflexivity|]. intros [].
  - destruct Hin as [E|Hin]; [contradiction|].
    destruct (IH Hin) as (pre & post & -> & Hnot).
    exists (l :: pre), post. split; [reflexivity|].
    intros [E|Hin']; [contradiction|exact (Hnot Hin')].
Qed.

Lemma unlines_cons_cons (l l' : string) (ls : list string) :
  Text.unlines (l :: l' :: ls) = l +:+ Text.nl +:+ Text.unlines (l' :: ls).
Proof. reflexivity. Qed.

(** Lines joined up to some line are shorter than with that line. *)
Lemma unlines_app_length (pre post : list string) (x : string) :
  String.length (Text.unlines pre) + String.length x
  <= String.length (Text.unlines (pre ++ x :: post)).
Proof.
  induction pre as [|p pre IH].
  - destruct post as [|q post].
    + cbn. lia.
    + cbn [app]. rewrite unlines_cons_cons, length_append. cbn. lia.
  - destruct pre as [|p' pre].
    + cbn [app] in IH |- *. rewrite unlines_cons_cons, !length_append.
      change (Text.unlines [p]) with p. lia.
    + cbn [app] in IH |- *.
      rewrite !unlines_cons_cons, !length_append. lia.
Qed.

Section FormatterMore.

Variable str_of : gmap loc obj -> loc -> string.

(** X11: the text read back from the here-document of
    [script_to_bash_command(s)] is [s] exactly when no line of [s] is
    equal to [SCRIPT]. With such a line, reading stops before it and
    gives a shorter text. *)
Theorem heredoc_round_trip_iff (s : string) (st : state) :
  exists c st' w0 w1 w2 word,
    script_to_bash_command str_of (VStr s) st = (inr (VRef c), st') /\
    heap st' !! c = Some (OList [w0; w1; w2; VStr word]) /\
    (heredoc_body word = Some s <-> ~ In "SCRIPT" (Text.lines s)).
Proof.
  eexists _, _, _, _, _, _.
  split; [apply script_to_bash_command_run|].
  split; [simpl; apply lookup_insert_eq|].
  simpl. unfold heredoc_body.
  rewrite lines_app_nl, lines_app_nl.
  change (Text.lines opener) with [opener].
  change (Text.lines "SCRIPT") with ["SCRIPT"].
  simpl app. cbv beta iota. rewrite String.eqb_refl.
  split.
  - intros Hbody Hin.
    destruct (in_split_first "SCRIPT" (Text.lines s) Hin)
      as (pre & post & Hlines & Hnot).
    rewrite Hlines, <- app_assoc in Hbody. cbn [app] in Hbody.
    rewrite (upto_delimiter_app "SCRIPT" pre _ Hnot) in Hbody.
    injection Hbody as Hbody.
    pose proof (unlines_app_length pre post "SCRIPT") as Hlen.
    rewrite <- Hlines, unlines_lines, Hbody in Hlen.
    cbn [String.length] in Hlen. lia.
  - intros Hs. rewrite upto_delimiter_app by exact Hs.
    simpl. rewrite unlines_lines. reflexivity.
Qed.

(** X12: the command keeps the whole script: from the same state, two
    strings give the same result exactly when they are the same string,
    so the fourth command word determines the script. *)
Theorem script_to_bash_command_injective (s1 s2 : string) (st : state) :
  script_to_bash_command str_of (VStr s1) st
  = script_to_bash_command str_of (VStr s2) st
  <-> s1 = s2.
Proof.
  split; [|intros ->; reflexivity].
  rewrite !script_to_bash_command_run. cbn [py_str]. intros E.
  injection E as E.
  apply (f_equal (fun h => h !! fresh (dom (heap st)))) in E.
  rewrite !lookup_insert_eq in E.
  injection E as E.
  exact (append_inv_tail s1 s2 _ E).
Qed.

End FormatterMore.

(** ** More theorems at sample records *)

Lemma heap2_has_script :
  Forall (has_script Sample.heap2) [VRef 1%positive; VRef 3%positive].
Proof.
  repeat apply Forall_cons_2; [| |apply Forall_nil_2].
  - exists 2%positive, {[ "script" := VStr "make" ]}.
    split; [vm_compute; reflexivity|].
    exists (VStr "make"). vm_compute. reflexivity.
  - exists 4%positive, {[ "script" := VStr "make check" ]}.
    split; [vm_compute; reflexivity|].
    exists (VStr "make check"). vm_compute. reflexivity.
Qed.

Lemma heap2_run_locs :
  NoDup (run_locs Sample.heap2 [VRef 1%positive; VRef 3%positive]).
Proof.
  change (NoDup [2%positive; 4%positive]).
  apply NoDup_cons_2; [|apply NoDup_singleton].
  intros Hin. apply list_elem_of_singleton in Hin. discriminate Hin.
Qed.

Lemma build_task_failure_point_witness :
  exists task rest,
    [VRef 1%positive; VRef 3%positive]
    = (yielded (build_task Sample.plain_str VNone
                  [VRef 1%positive; VRef 3%positive]
                  (State Sample.heap_mixed []))
       ++ task :: rest)%list /\
    ~ has_script
        (heap (final (build_task Sample.plain_str VNone
                        [VRef 1%positive; VRef 3%positive]
                        (State Sample.heap_mixed []))))
        task /\
    raised (build_task Sample.plain_str VNone
              (yielded (build_task Sample.plain_str VNone
                          [VRef 1%positive; VRef 3%positive]
                          (State Sample.heap_mixed [])))
              (State Sample.heap_mixed []))
    = None /\
    heap (final (build_task Sample.plain_str VNone
                   [VRef 1%positive; VRef 3%positive]
                   (State Sample.heap_mixed [])))
    = heap (final (build_task Sample.plain_str VNone
                     (yielded (build_task Sample.plain_str VNone
                                 [VRef 1%positive; VRef 3%positive]
                                 (State Sample.heap_mixed [])))
                     (State Sample.heap_mixed []))).
Proof.
  apply (build_task_failure_point Sample.plain_str VNone
           [VRef 1%positive; VRef 3%positive] (State Sample.heap_mixed [])
           (KeyError "script")).
  vm_compute. reflexivity.
Defined.

Lemma build_task_missing_run_witness :
  resume Sample.plain_str VNone [VRef 1%positive]
    (State Sample.heap_malformed [])
  = (inl (KeyError "run"),
     State Sample.heap_malformed
       ([] ++ [py_str Sample.plain_str Sample.heap_malformed
                 (VRef 1%positive) +:+ Text.nl])) /\
  yielded (build_task Sample.plain_str VNone [VRef 1%positive]
             (State Sample.heap_malformed []))
  = [] /\
  raised (build_task Sample.plain_str VNone [VRef 1%positive]
            (State Sample.heap_malformed []))
  = Some (KeyError "run").
Proof.
  apply (build_task_missing_run Sample.plain_str VNone 1%positive
           {[ "name" := VStr "build" ]} []
           (State Sample.heap_malformed [])).
  - vm_compute. reflexivity.
  - vm_compute. reflexivity.
Defined.

Lemma build_task_run_not_mapping_witness :
  (raised (build_task Sample.plain_str VNone [VRef 2%positive]
             (State Sample.heap_malformed []))
   = Some AttributeError /\
   heap (final (build_task Sample.plain_str VNone [VRef 2%positive]
                  (State Sample.heap_malformed [])))
   = Sample.heap_malformed) /\
  (raised (build_task Sample.plain_str VNone [VRef 3%positive]
             (State Sample.heap_malformed []))
   = Some TypeError /\
   heap (final (build_task Sample.plain_str VNone [VRef 3%positive]
                  (State Sample.heap_malformed [])))
   = Sample.heap_malformed).
Proof.
  split.
  - apply (build_task_run_not_mapping Sample.plain_str VNone 2%positive
             {[ "run" := VNone ]} VNone []
             (State Sample.heap_malformed [])).
    + vm_compute. reflexivity.
    + vm_compute. reflexivity.
    + left. reflexivity.
  - assert (H3 : heap (State Sample.heap_malformed []) !! 3%positive
                 = Some (ODict {[ "run" := VRef 4%positive ]})).
    { vm_compute. reflexivity. }
    assert (Hrun : ({[ "run" := VRef 4%positive ]} : gmap string value)
                     !! "run" = Some (VRef 4%positive)).
    { vm_compute. reflexivity. }
    assert (H4 : heap (State Sample.heap_malformed []) !! 4%positive
                 = Some (OList [VStr "make"])).
    { vm_compute. reflexivity. }
    exact (proj2 (build_task_run_not_mapping Sample.plain_str VNone
                    3%positive {[ "run" := VRef 4%positive ]}
                    (VRef 4%positive) []
                    (State Sample.heap_malformed []) H3 Hrun)
             4%positive [VStr "make"] eq_refl H4).
Defined.

Lemma build_task_transforms_all_witness :
  raised (build_task Sample.plain_str VNone
            [VRef 1%positive; VRef 3%positive] (State Sample.heap2 []))
  = None /\
  Forall (fun task =>
            exists c,
              transformed Sample.heap2
                (heap (final (build_task Sample.plain_str VNone
                                [VRef 1%positive; VRef 3%positive]
                                (State Sample.heap2 []))))
                task c)
    [VRef 1%positive; VRef 3%positive].
Proof.
  exact (build_task_transforms_all Sample.plain_str VNone
           [VRef 1%positive; VRef 3%positive] (State Sample.heap2 [])
           heap2_has_script heap2_run_locs).
Defined.

Lemma build_task_command_lists_distinct_witness :
  exists cs,
    NoDup cs /\
    Forall2 (fun task c =>
               (c ∉ dom Sample.heap2) /\
               exists r rm,
                 run_mapping
                   (heap (final (build_task Sample.plain_str VNone
                                   [VRef 1%positive; VRef 3%positive]
                                   (State Sample.heap2 []))))
                   task
                 = Some (r, rm) /\
                 rm !! "command" = Some (VRef c))
      [VRef 1%positive; VRef 3%positive] cs.
Proof.
  exact (build_task_command_lists_distinct Sample.plain_str VNone
           [VRef 1%positive; VRef 3%positive] (State Sample.heap2 [])
           heap2_has_script heap2_run_locs).
Defined.

Lemma build_task_drain_frame_witness :
  (forall l o,
      Sample.heap2 !! l = Some o ->
      l ∉ run_locs Sample.heap2 [VRef 1%positive; VRef 3%positive] ->
      heap (final (build_task Sample.plain_str VNone
                     [VRef 1%positive; VRef 3%positive]
                     (State Sample.heap2 []))) !! l
      = Some o) /\
  size (dom (heap (final (build_task Sample.plain_str VNone
                            [VRef 1%positive; VRef 3%positive]
                            (State Sample.heap2 [])))))
  = size (dom Sample.heap2) + length [VRef 1%positive; VRef 3%positive].
Proof.
  exact (build_task_drain_frame Sample.plain_str VNone
           [VRef 1%positive; VRef 3%positive] (State Sample.heap2 [])
           heap2_has_script heap2_run_locs).
Defined.

Lemma build_task_shared_mapping_raises_witness :
  yielded (build_task Sample.plain_str VNone
             [VRef 1%positive; VRef 3%positive]
             (State Sample.heap_shared []))
  = [VRef 1%positive] /\
  raised (build_task Sample.plain_str VNone
            [VRef 1%positive; VRef 3%positive]
            (State Sample.heap_shared []))
  = Some (KeyError "script").
Proof.
  apply (build_task_shared_mapping_raises Sample.plain_str VNone
           (VRef 1%positive) (VRef 3%positive) [] 2%positive
           {[ "script" := VStr "make" ]} {[ "script" := VStr "make" ]}
           (State Sample.heap_shared [])).
  - vm_compute. reflexivity.
  - exists (VStr "make"). vm_compute. reflexivity.
  - vm_compute. reflexivity.
Defined.

(** ** Two runs *)

Lemma value_in_mono (h h' : gmap loc obj) (v : value) :
  dom h ⊆ dom h' -> value_in h v -> value_in h' v.
Proof. intros Hsub. destruct v as [s| |l]; simpl; auto. Qed.

Lemma rename_value_agree (f f' : loc -> loc) (h : gmap loc obj) (v : value) :
  (forall l, l ∈ dom h -> f' l = f l) ->
  value_in h v -> rename_value f' v = rename_value f v.
Proof.
  intros Hagree Hv. destruct v as [s| |l]; simpl in *; [reflexivity..|].
  rewrite (Hagree l Hv). reflexivity.
Qed.

Lemma rename_obj_agree (f f' : loc -> loc) (h : gmap loc obj) (o : obj) :
  (forall l, l ∈ dom h -> f' l = f l) ->
  (forall v, holds o v -> value_in h v) ->
  rename_obj f' o = rename_obj f o.
Proof.
  intros Hagree Ho. destruct o as [d|xs]; simpl in *; f_equal.
  - apply map_fmap_ext. intros key v Hv.
    apply (rename_value_agree f f' h v Hagree). apply Ho. eauto.
  - apply Forall_fmap_ext_1, Forall_forall. intros v Hv.
    apply (rename_value_agree f f' h v Hagree), Ho, Hv.
Qed.

Lemma same_heap_image (f : loc -> loc) (h1 h2 : gmap loc obj) (l : loc) :
  same_heap f h1 h2 -> l ∈ dom h1 -> f l ∈ dom h2.
Proof.
  intros (_ & _ & Hobj) Hl. apply elem_of_dom in Hl as [o Ho].
  apply elem_of_dom. rewrite (Hobj l o Ho). eauto.
Qed.

(** Replacing the dictionary at [r] in both runs by dictionaries that
    are the same keeps the heaps the same. *)
Lemma same_heap_update (f : loc -> loc) (h1 h2 : gmap loc obj) (r : loc)
      (d : gmap string value) :
  same_heap f h1 h2 ->
  r ∈ dom h1 ->
  (forall v, holds (ODict d) v -> value_in h1 v) ->
  same_heap f (<[r := ODict d]> h1)
    (<[f r := ODict (rename_value f <$> d)]> h2).
Proof.
  intros (Hclosed & Hinj & Hobj) Hr Hd.
  assert (Hdom : dom (<[r := ODict d]> h1) = dom h1).
  { apply dom_insert_lookup_L. apply elem_of_dom. exact Hr. }
  assert (Hin : forall v, value_in h1 v -> value_in (<[r := ODict d]> h1) v).
  { intros v. apply value_in_mono. rewrite Hdom. reflexivity. }
  split; [|split].
  - intros l o v Hl Hv. apply Hin.
    destruct (decide (l = r)) as [->|Hne].
    + rewrite lookup_insert_eq in Hl. injection Hl as <-. exact (Hd v Hv).
    + rewrite lookup_insert_ne in Hl by congruence.
      exact (Hclosed l o v Hl Hv).
  - rewrite Hdom. exact Hinj.
  - intros l o Hl. destruct (decide (l = r)) as [->|Hne].
    + rewrite lookup_insert_eq in Hl. injection Hl as <-.
      apply lookup_insert_eq.
    + rewrite lookup_insert_ne in Hl by congruence.
      rewrite lookup_insert_ne; [exact (Hobj l o Hl)|].
      intros E. apply Hne. symmetry. apply Hinj; [| |exact E].
      * exact Hr.
      * apply elem_of_dom. rewrite Hl. eauto.
Qed.

(** Allocating objects that are the same at unused locations of the two
    runs keeps the heaps the same, with the new object placed. *)
Lemma same_heap_alloc (f : loc -> loc) (h1 h2 : gmap loc obj) (c1 c2 : loc)
      (o : obj) :
  same_heap f h1 h2 ->
  c1 ∉ dom h1 -> c2 ∉ dom h2 ->
  (forall v, holds o v -> value_in h1 v) ->
  same_heap (place f c1 c2) (<[c1 := o]> h1) (<[c2 := rename_obj f o]> h2).
Proof.
  intros Hsame Hc1 Hc2 Ho.
  pose proof Hsame as (Hclosed & Hinj & Hobj).
  assert (Hagree : forall l, l ∈ dom h1 -> place f c1 c2 l = f l).
  { intros l Hl. unfold place. rewrite decide_False; [reflexivity|].
    intros ->. exact (Hc1 Hl). }
  assert (Hsub : dom h1 ⊆ dom (<[c1 := o]> h1)).
  { rewrite dom_insert_L. apply union_subseteq_r. }
  assert (Hne2 : forall l, l ∈ dom h1 -> f l <> c2).
  { intros l Hl E. apply Hc2. rewrite <- E.
    exact (same_heap_image f h1 h2 l Hsame Hl). }
  split; [|split].
  - intros l o' v Hl Hv. apply (value_in_mono h1); [exact Hsub|].
    destruct (decide (l = c1)) as [->|Hne].
    + rewrite lookup_insert_eq in Hl. injection Hl as <-. exact (Ho v Hv).
    + rewrite lookup_insert_ne in Hl by congruence.
      exact (Hclosed l o' v Hl Hv).
  - intros l l'. rewrite dom_insert_L, !elem_of_union, !elem_of_singleton.
    intros [->|Hl] [->|Hl']; [reflexivity| | |].
    + unfold place at 1. rewrite decide_True by reflexivity.
      rewrite (Hagree l' Hl'). intros E. destruct (Hne2 l' Hl'). auto.
    + unfold place at 2. rewrite decide_True by reflexivity.
      rewrite (Hagree l Hl). intros E. destruct (Hne2 l Hl). auto.
    + rewrite (Hagree l Hl), (Hagree l' Hl'). exact (Hinj l l' Hl Hl').
  - intros l o' Hl. destruct (decide (l = c1)) as [->|Hne].
    + rewrite lookup_insert_eq in Hl. injection Hl as <-.
      unfold place at 1. rewrite decide_True by reflexivity.
      rewrite lookup_insert_eq. f_equal. symmetry.
      exact (rename_obj_agree f _ h1 o Hagree Ho).
    + rewrite lookup_insert_ne in Hl by congruence.
      assert (Hdl : l ∈ dom h1) by (apply elem_of_dom; rewrite Hl; eauto).
      rewrite (Hagree l Hdl).
      rewrite lookup_insert_ne by (intros E; exact (Hne2 l Hdl (eq_sym E))).
      rewrite (Hobj l o' Hl). f_equal. symmetry.
      apply (rename_obj_agree f _ h1 o' Hagree).
      intros v Hv. exact (Hclosed l o' v Hl Hv).
Qed.

(** A record of one run is a record of the other, with the same run
    mapping. *)
Lemma run_mapping_same (f : loc -> loc) (h1 h2 : gmap loc obj) (task : value)
      (r : loc) (rm : gmap string value) :
  same_heap f h1 h2 ->
  run_mapping h1 task = Some (r, rm) ->
  run_mapping h2 (rename_value f task)
  = Some (f r, rename_value f <$> rm).
Proof.
  intros (_ & _ & Hobj) Hrun.
  apply run_mapping_Some in Hrun as (t & d & -> & Ht & Hr & Hrm).
  apply run_mapping_Some. exists (f t), (rename_value f <$> d).
  split; [reflexivity|].
  split; [exact (Hobj t _ Ht)|].
  split; [rewrite lookup_fmap, Hr; reflexivity|].
  exact (Hobj r _ Hrm).
Qed.

Section TwoRuns.

Variable str_of : gmap loc obj -> loc -> string.

(** The text of a container depends on what it holds, not on where its
    objects live. *)
Hypothesis str_of_same :
  forall f h1 h2 l,
    same_heap f h1 h2 -> l ∈ dom h1 -> str_of h1 l = str_of h2 (f l).

Lemma py_str_same (f : loc -> loc) (h1 h2 : gmap loc obj) (v : value) :
  same_heap f h1 h2 -> value_in h1 v ->
  py_str str_of h1 v = py_str str_of h2 (rename_value f v).
Proof.
  intros Hsame Hv. destruct v as [s| |l]; simpl; [reflexivity..|].
  exact (str_of_same f h1 h2 l Hsame Hv).
Qed.

(** A turn that stops at [task["run"]] or at [pop]. *)
Lemma loop_body_getitem_raise (task : value) (e : exn) (st : state) :
  getitem task "run"
    (State (heap st)
       (stdout st ++ [py_str str_of (heap st) task +:+ Text.nl]))
  = (inl e,
     State (heap st)
       (stdout st ++ [py_str str_of (heap st) task +:+ Text.nl])) ->
  loop_body str_of task st
  = (inl e,
     State (heap st)
       (stdout st ++ [py_str str_of (heap st) task +:+ Text.nl])).
Proof.
  intros E. unfold loop_body.
  erewrite bind_ok by apply print_run. apply bind_raise. exact E.
Qed.

Lemma loop_body_pop_raise (task run : value) (e : exn) (st : state) :
  getitem task "run"
    (State (heap st)
       (stdout st ++ [py_str str_of (heap st) task +:+ Text.nl]))
  = (inr run,
     State (heap st)
       (stdout st ++ [py_str str_of (heap st) task +:+ Text.nl])) ->
  pop run "script"
    (State (heap st)
       (stdout st ++ [py_str str_of (heap st) task +:+ Text.nl]))
  = (inl e,
     State (heap st)
       (stdout st ++ [py_str str_of (heap st) task +:+ Text.nl])) ->
  loop_body str_of task st
  = (inl e,
     State (heap st)
       (stdout st ++ [py_str str_of (heap st) task +:+ Text.nl])).
Proof.
  intros E1 E2. unfold loop_body.
  erewrite bind_ok by apply print_run.
  erewrite bind_ok by exact E1. apply bind_raise. exact E2.
Qed.

(** One turn of the loop in two runs whose heaps are the same: the turns
    end the same way, write the same text and leave heaps that are the
    same, with the new command list of the one placed at that of the
    other. *)
Lemma loop_body_same (f : loc -> loc) (h1 h2 : gmap loc obj)
      (out1 out2 : list string) (task : value) :
  same_heap f h1 h2 ->
  value_in h1 task ->
  exists f' h1' h2' res line,
    loop_body str_of task (State h1 out1)
    = (res, State h1' (out1 ++ [line])) /\
    loop_body str_of (rename_value f task) (State h2 out2)
    = (res, State h2' (out2 ++ [line])) /\
    same_heap f' h1' h2' /\
    dom h1 ⊆ dom h1' /\
    (forall l, l ∈ dom h1 -> f' l = f l).
Proof.
  intros Hsame Htask.
  pose proof Hsame as (Hclosed & Hinj & Hobj).
  pose proof (py_str_same f h1 h2 task Hsame Htask) as Hline.
  assert (Hfail : forall e,
            loop_body str_of task (State h1 out1)
            = (inl e,
               State h1 (out1 ++ [py_str str_of h1 task +:+ Text.nl])) ->
            loop_body str_of (rename_value f task) (State h2 out2)
            = (inl e,
               State h2
                 (out2 ++ [py_str str_of h2 (rename_value f task)
                           +:+ Text.nl])) ->
            exists f' h1' h2' res line,
              loop_body str_of task (State h1 out1)
              = (res, State h1' (out1 ++ [line])) /\
              loop_body str_of (rename_value f task) (State h2 out2)
              = (res, State h2' (out2 ++ [line])) /\
              same_heap f' h1' h2' /\
              dom h1 ⊆ dom h1' /\
              (forall l, l ∈ dom h1 -> f' l = f l)).
  { intros e E1 E2. eexists f, h1, h2, (inl e), _.
    split; [exact E1|]. split; [rewrite Hline; exact E2|].
    split; [exact Hsame|]. split; [reflexivity|]. auto. }
  destruct task as [s| |t].
  - apply (Hfail TypeError); apply loop_body_getitem_raise; reflexivity.
  - apply (Hfail TypeError); apply loop_body_getitem_raise; reflexivity.
  - simpl in Htask. apply elem_of_dom in Htask as [o Ht].
    pose proof (Hobj t o Ht) as Ht2.
    destruct o as [d|xs].
    2:{ apply (Hfail TypeError); apply loop_body_getitem_raise;
          unfold getitem; cbn [heap rename_value];
          [rewrite Ht|rewrite Ht2]; reflexivity. }
    destruct (d !! "run") as [run|] eqn:Hr.
    2:{ apply (Hfail (KeyError "run")); apply loop_body_getitem_raise;
          unfold getitem; cbn [heap rename_value];
          [rewrite Ht, Hr|rewrite Ht2; cbn [rename_obj];
                          rewrite lookup_fmap, Hr]; reflexivity. }
    assert (Hg1 : forall out,
              getitem (VRef t) "run" (State h1 out) = (inr run, State h1 out)).
    { intros out. apply (getitem_dict t d); [exact Ht|exact Hr]. }
    assert (Hg2 : forall out,
              getitem (VRef (f t)) "run" (State h2 out)
              = (inr (rename_value f run), State h2 out)).
    { intros out. apply (getitem_dict (f t) (rename_value f <$> d)).
      - exact Ht2.
      - rewrite lookup_fmap, Hr. reflexivity. }
    assert (Hrun_in : value_in h1 run).
    { apply (Hclosed t (ODict d) run Ht). exists "run". exact Hr. }
    destruct run as [s| |r].
    + apply (Hfail AttributeError);
        (eapply loop_body_pop_raise; [apply Hg1 || apply Hg2|reflexivity]).
    + apply (Hfail AttributeError);
        (eapply loop_body_pop_raise; [apply Hg1 || apply Hg2|reflexivity]).
    + simpl in Hrun_in. apply elem_of_dom in Hrun_in as [o Hrm].
      pose proof (Hobj r o Hrm) as Hrm2.
      destruct o as [rm|xs].
      2:{ apply (Hfail TypeError);
            (eapply loop_body_pop_raise; [apply Hg1 || apply Hg2|]);
            unfold pop; cbn [heap rename_value];
            [rewrite Hrm|rewrite Hrm2]; reflexivity. }
      assert (Hrun1 : run_mapping h1 (VRef t) = Some (r, rm)).
      { apply run_mapping_Some. exists t, d. auto. }
      pose proof (run_mapping_same f h1 h2 (VRef t) r rm Hsame Hrun1)
        as Hrun2.
      destruct (rm !! "script") as [script|] eqn:Hs.
      2:{ apply (Hfail (KeyError "script")).
          - exact (loop_body_missing str_of (VRef t) r rm (State h1 out1)
                     Hrun1 Hs).
          - apply (loop_body_missing str_of _ (f r) (rename_value f <$> rm)
                     (State h2 out2) Hrun2).
            rewrite lookup_fmap, Hs. reflexivity. }
      assert (Hs2 : (rename_value f <$> rm) !! "script"
                    = Some (rename_value f script)).
      { rewrite lookup_fmap, Hs. reflexivity. }
      pose proof (loop_body_ok str_of (VRef t) r rm script (State h1 out1)
                    Hrun1 Hs) as E1.
      pose proof (loop_body_ok str_of _ (f r) _ _ (State h2 out2)
                    Hrun2 Hs2) as E2.
      cbn [heap stdout] in E1, E2.
      set (c1 := fresh (dom h1)) in *. set (c2 := fresh (dom h2)) in *.
      assert (Hc1 : c1 ∉ dom h1) by apply is_fresh.
      assert (Hc2 : c2 ∉ dom h2) by apply is_fresh.
      assert (Hr_in : r ∈ dom h1).
      { apply elem_of_dom. rewrite Hrm. eauto. }
      assert (Hrm_in : forall v, holds (ODict rm) v -> value_in h1 v).
      { intros v Hv. exact (Hclosed r (ODict rm) v Hrm Hv). }
      assert (Hdel_in : forall v, holds (ODict (delete "script" rm)) v
                                  -> value_in h1 v).
      { intros v [key Hv]. apply Hrm_in. exists key.
        apply lookup_delete_Some in Hv as [_ Hv]. exact Hv. }
      (* the heaps after [pop] *)
      pose proof (same_heap_update f h1 h2 r (delete "script" rm)
                    Hsame Hr_in Hdel_in) as Hsame1.
      rewrite fmap_delete in Hsame1.
      assert (Hscript_in : value_in (<[r := ODict (delete "script" rm)]> h1)
                             script).
      { apply (value_in_mono h1).
        - rewrite dom_insert_L. apply union_subseteq_r.
        - apply Hrm_in. exists "script". exact Hs. }
      pose proof (py_str_same f _ _ script Hsame1 Hscript_in) as Hbody.
      rewrite <- Hbody in E2.
      set (body := py_str str_of (<[r := ODict (delete "script" rm)]> h1)
                     script) in *.
      (* the heaps after the list display *)
      assert (Hcmd_in : forall v, holds (OList (command_words body)) v
                                  -> value_in h1 v).
      { intros v Hv. simpl in Hv.
        repeat (apply elem_of_cons in Hv as [->|Hv]; [exact I|]).
        apply elem_of_nil in Hv. destruct Hv. }
      pose proof (same_heap_alloc f h1 h2 c1 c2 (OList (command_words body))
                    Hsame Hc1 Hc2 Hcmd_in) as Hsame2.
      assert (Hagree : forall l, l ∈ dom h1 -> place f c1 c2 l = f l).
      { intros l Hl. unfold place. rewrite decide_False; [reflexivity|].
        intros ->. exact (Hc1 Hl). }
      (* the heaps after the assignment *)
      assert (Hnew_in :
                forall v,
                  holds (ODict (<["command" := VRef c1]>
                                  (delete "script" rm))) v ->
                  value_in (<[c1 := OList (command_words body)]> h1) v).
      { intros v [key Hv].
        destruct (decide (key = "command")) as [->|Hne].
        - rewrite lookup_insert_eq in Hv. injection Hv as <-. simpl.
          rewrite dom_insert_L. apply elem_of_union_l, elem_of_singleton.
          reflexivity.
        - rewrite lookup_insert_ne in Hv by congruence.
          apply (value_in_mono h1).
          + rewrite dom_insert_L. apply union_subseteq_r.
          + apply Hdel_in. exists key. exact Hv. }
      assert (Hr_in2 : r ∈ dom (<[c1 := OList (command_words body)]> h1)).
      { rewrite dom_insert_L. apply elem_of_union_r. exact Hr_in. }
      pose proof (same_heap_update (place f c1 c2) _ _ r _
                    Hsame2 Hr_in2 Hnew_in) as Hsame3.
      rewrite (Hagree r Hr_in), fmap_insert, fmap_delete in Hsame3.
      cbn [rename_value] in Hsame3.
      unfold place at 2 in Hsame3. rewrite decide_True in Hsame3 by reflexivity.
      rewrite (map_fmap_ext (rename_value (place f c1 c2)) (rename_value f) rm)
        in Hsame3.
      2:{ intros key v Hv. apply (rename_value_agree f _ h1 v Hagree).
          apply Hrm_in. exists key. exact Hv. }
      eexists (place f c1 c2), _, _, (inr tt), _.
      split; [exact E1|]. split; [rewrite Hline; exact E2|].
      split; [exact Hsame3|].
      split; [|exact Hagree].
      rewrite (dom_insert_lookup_L _ r).
      * rewrite dom_insert_L. apply union_subseteq_r.
      * apply elem_of_dom. exact Hr_in2.
Qed.

(** Draining the generator in two runs whose heaps are the same. *)
Lemma build_task_same (config1 config2 : value) (tasks : list value) :
  forall (f : loc -> loc) (h1 h2 : gmap loc obj) (out1 out2 : list string),
    same_heap f h1 h2 ->
    Forall (value_in h1) tasks ->
    exists f' written,
      (forall l, l ∈ dom h1 -> f' l = f l) /\
      dom h1 ⊆ dom (heap (final (build_task str_of config1 tasks
                                   (State h1 out1)))) /\
      same_heap f'
        (heap (final (build_task str_of config1 tasks (State h1 out1))))
        (heap (final (build_task str_of config2 (rename_value f <$> tasks)
                        (State h2 out2)))) /\
      yielded (build_task str_of config2 (rename_value f <$> tasks)
                 (State h2 out2))
      = rename_value f'
          <$> yielded (build_task str_of config1 tasks (State h1 out1)) /\
      raised (build_task str_of config2 (rename_value f <$> tasks)
                (State h2 out2))
      = raised (build_task str_of config1 tasks (State h1 out1)) /\
      stdout (final (build_task str_of config1 tasks (State h1 out1)))
      = (out1 ++ written)%list /\
      stdout (final (build_task str_of config2 (rename_value f <$> tasks)
                       (State h2 out2)))
      = (out2 ++ written)%list.
Proof.
  induction tasks as [|task rest IH]; intros f h1 h2 out1 out2 Hsame Hall.
  - exists f, []. cbn [fmap list_fmap build_task final heap stdout
                         yielded raised].
    rewrite !app_nil_r.
    split; [auto|]. split; [reflexivity|]. split; [exact Hsame|].
    repeat split.
  - apply Forall_cons in Hall as [Htask Hrest].
    destruct (loop_body_same f h1 h2 out1 out2 task Hsame Htask)
      as (f1 & h1' & h2' & res & line & E1 & E2 & Hsame1 & Hsub & Hagree).
    rewrite fmap_cons.
    destruct res as [e|u].
    + rewrite (build_task_cons_raise str_of config1 task rest _ _ e E1).
      rewrite (build_task_cons_raise str_of config2 _ _ _ _ e E2).
      cbn [final heap stdout yielded raised].
      exists f1, [line].
      split; [exact Hagree|]. split; [exact Hsub|]. split; [exact Hsame1|].
      repeat split.
    + rewrite (build_task_cons_ok str_of config1 task rest _ _ u E1).
      rewrite (build_task_cons_ok str_of config2 _ _ _ _ u E2).
      cbn [final yielded raised].
      assert (Hrest' : Forall (value_in h1') rest).
      { eapply Forall_impl; [exact Hrest|].
        intros v. apply value_in_mono. exact Hsub. }
      assert (Hren : rename_value f <$> rest = rename_value f1 <$> rest).
      { apply Forall_fmap_ext_1. eapply Forall_impl; [exact Hrest|].
        intros v Hv. symmetry.
        exact (rename_value_agree f f1 h1 v Hagree Hv). }
      rewrite Hren.
      destruct (IH f1 h1' h2' (out1 ++ [line])%list (out2 ++ [line])%list
                  Hsame1 Hrest')
        as (f2 & written & Hagree2 & Hsub2 & Hsame2 & Hy & Hr & Ho1 & Ho2).
      exists f2, (line :: written).
      assert (Hagree' : forall l, l ∈ dom h1 -> f2 l = f l).
      { intros l Hl. rewrite (Hagree2 l (Hsub l Hl)). exact (Hagree l Hl). }
      split; [exact Hagree'|].
      split; [etransitivity; [exact Hsub|exact Hsub2]|].
      split; [exact Hsame2|].
      split.
      { rewrite fmap_cons, Hy. f_equal. symmetry.
        exact (rename_value_agree f f2 h1 task Hagree' Htask). }
      split; [exact Hr|].
      rewrite Ho1, Ho2, <- !app_assoc. split; reflexivity.
Qed.

(** C7: the transform is deterministic. Take two runs given equal
    inputs: the second holds the objects of the first, each at a place of
    its own, and may hold other objects besides; its configuration and
    its tasks are those of the first; what was written before may differ.
    Then the second run yields the same records as the first, ends with
    the same exception or with none, writes the same text, and leaves a
    heap that is again the same as the one the first run leaves. Nothing
    but the inputs has a part in the result. *)
Theorem build_task_deterministic (f : loc -> loc) (h1 h2 : gmap loc obj)
        (out1 out2 : list string) (config : value) (tasks : list value) :
  same_heap f h1 h2 ->
  Forall (value_in h1) tasks ->
  yielded (build_task str_of (rename_value f config)
             (rename_value f <$> tasks) (State h2 out2))
  = rename_value f
      <$> yielded (build_task str_of config tasks (State h1 out1)) /\
  raised (build_task str_of (rename_value f config)
            (rename_value f <$> tasks) (State h2 out2))
  = raised (build_task str_of config tasks (State h1 out1)) /\
  (exists f',
     (forall l, l ∈ dom h1 -> f' l = f l) /\
     same_heap f'
       (heap (final (build_task str_of config tasks (State h1 out1))))
       (heap (final (build_task str_of (rename_value f config)
                       (rename_value f <$> tasks) (State h2 out2))))) /\
  (exists written,
     stdout (final (build_task str_of config tasks (State h1 out1)))
     = (out1 ++ written)%list /\
     stdout (final (build_task str_of (rename_value f config)
                      (rename_value f <$> tasks) (State h2 out2)))
     = (out2 ++ written)%list).
Proof.
  intros Hsame Hall.
  destruct (build_task_same config (rename_value f config) tasks
              f h1 h2 out1 out2 Hsame Hall)
    as (f' & written & Hagree & _ & Hsame' & Hy & Hr & Ho1 & Ho2).
  split; [|split; [exact Hr|split; [eauto|eauto]]].
  rewrite Hy. apply Forall_fmap_ext_1.
  destruct (build_task_yields_prefix str_of config tasks (State h1 out1))
    as (rest & E & _).
  rewrite E in Hall. apply Forall_app in Hall as [Hall _].
  eapply Forall_impl; [exact Hall|].
  intros v Hv. exact (rename_value_agree f f' h1 v Hagree Hv).
Qed.

End TwoRuns.

Lemma heap1_lookup (l : loc) (o : obj) :
  Sample.heap1 !! l = Some o ->
  (l = 1%positive /\ o = ODict {[ "run" := VRef 2%positive ]}) \/
  (l = 2%positive /\ o = ODict {[ "script" := VStr "exit 1" ]}).
Proof.
  unfold Sample.heap1. intros Hl.
  apply lookup_insert_Some in Hl as [[<- <-]|[_ Hl]]; [left; auto|].
  apply lookup_insert_Some in Hl as [[<- <-]|[_ Hl]]; [right; auto|].
  rewrite lookup_empty in Hl. discriminate Hl.
Qed.

Lemma heap1_moved_same :
  same_heap Sample.moved Sample.heap1 Sample.heap1_moved.
Proof.
  split; [|split].
  - intros l o v Hl Hv.
    destruct (heap1_lookup l o Hl) as [[-> ->]|[-> ->]];
      destruct Hv as [key Hv];
      apply lookup_singleton_Some in Hv as [_ <-]; simpl; [|exact I].
    apply elem_of_dom. exists (ODict {[ "script" := VStr "exit 1" ]}).
    vm_compute. reflexivity.
  - intros l l' _ _. unfold Sample.moved. lia.
  - intros l o Hl.
    destruct (heap1_lookup l o Hl) as [[-> ->]|[-> ->]];
      vm_compute; reflexivity.
Qed.

Lemma build_task_deterministic_witness :
  yielded (build_task Sample.plain_str (rename_value Sample.moved VNone)
             (rename_value Sample.moved <$> [VRef 1%positive])
             (State Sample.heap1_moved ["earlier"]))
  = rename_value Sample.moved
      <$> yielded (build_task Sample.plain_str VNone [VRef 1%positive]
                     (State Sample.heap1 [])) /\
  raised (build_task Sample.plain_str (rename_value Sample.moved VNone)
            (rename_value Sample.moved <$> [VRef 1%positive])
            (State Sample.heap1_moved ["earlier"]))
  = raised (build_task Sample.plain_str VNone [VRef 1%positive]
              (State Sample.heap1 [])) /\
  (exists f',
     (forall l, l ∈ dom Sample.heap1 -> f' l = Sample.moved l) /\
     same_heap f'
       (heap (final (build_task Sample.plain_str VNone [VRef 1%positive]
                       (State Sample.heap1 []))))
       (heap (final (build_task Sample.plain_str
                       (rename_value Sample.moved VNone)
                       (rename_value Sample.moved <$> [VRef 1%positive])
                       (State Sample.heap1_moved ["earlier"]))))) /\
  (exists written,
     stdout (final (build_task Sample.plain_str VNone [VRef 1%positive]
                      (State Sample.heap1 [])))
     = ([] ++ written)%list /\
     stdout (final (build_task Sample.plain_str
                      (rename_value Sample.moved VNone)
                      (rename_value Sample.moved <$> [VRef 1%positive])
                      (State Sample.heap1_moved ["earlier"])))
     = (["earlier"] ++ written)%list).
Proof.
  apply (build_task_deterministic Sample.plain_str
           (fun _ _ _ _ _ _ => eq_refl)
           Sample.moved Sample.heap1 Sample.heap1_moved [] ["earlier"]
           VNone [VRef 1%positive]).
  - exact heap1_moved_same.
  - apply Forall_cons_2; [|apply Forall_nil_2].
    apply elem_of_dom. exists (ODict {[ "run" := VRef 2%positive ]}).
    vm_compute. reflexivity.
Defined.
